(** * Nessus CSV report generator: a model of [app.py] and its properties

    The development embeds [generate_report] and its helpers.  The input
    of the model is the table as [pd.read_csv] has loaded it: a list of
    rows with the five columns the program uses, each cell being either
    a text or pandas' missing value [NaN] (what [read_csv] yields for an
    empty field).  Numeric columns are outside the model: every column
    is a text column or an all-missing one.  Texts are byte strings
    (UTF-8).

    What the program takes from its libraries and cannot be embedded is
    a parameter of the model, the class [Library]: the case mappings of
    Python, which are those of Unicode, the test the XML library applies
    to every text written into the document, and the parsing of a colour.
    They are known through the facts listed in the class.

    The document is the list of blocks of the template followed by the
    blocks the program appends; the template is taken to define the
    paragraph styles the program names.  Drawing a chart is represented
    by the data handed to [plt.bar].  The file system is the set of file
    names present, and the calls that may fail for reasons outside the
    program ([plt.savefig], [add_picture], [doc.save]) consult an
    environment.  Logging is not represented. *)

From Stdlib Require Import Ascii String DecimalString.
From stdpp Require Import base decidable option list strings gmap.

#[local] Set Warnings "-clear-no-such-hyp".

Local Open Scope string_scope.
Local Open Scope nat_scope.
Local Open Scope list_scope.

(** ** Python values and exceptions *)

(** A cell of the table: a missing value or a text. *)
Inductive value :=
| NaN
| Str (s : string).

#[global] Instance value_eq_dec : EqDecision value.
Proof. solve_decision. Defined.

Inductive exn :=
| AttributeError
| TypeError
| FileNotFoundError
| ValueError
| SaveFigError
| PictureError
| SaveError.

#[global] Instance exn_eq_dec : EqDecision exn.
Proof. solve_decision. Defined.

Inductive outcome (A : Type) :=
| Ok (a : A)
| Raise (e : exn).
Arguments Ok {A} a.
Arguments Raise {A} e.

#[global] Instance outcome_ret : MRet outcome := @Ok.
#[global] Instance outcome_bind : MBind outcome := fun A B f m =>
  match m with
  | Ok a => f a
  | Raise e => Raise e
  end.

Definition is_ok {A} (o : outcome A) : bool :=
  match o with Ok _ => true | Raise _ => false end.

(** ** Text operations *)

Fixpoint str_map (f : ascii -> ascii) (s : string) : string :=
  match s with
  | EmptyString => EmptyString
  | String c s' => String (f c) (str_map f s')
  end.

Definition ascii_lower (c : ascii) : ascii :=
  let n := nat_of_ascii c in
  if (65 <=? n) && (n <=? 90) then ascii_of_nat (n + 32) else c.

Definition ascii_upper (c : ascii) : ascii :=
  let n := nat_of_ascii c in
  if (97 <=? n) && (n <=? 122) then ascii_of_nat (n - 32) else c.

Fixpoint str_forall (p : ascii -> bool) (s : string) : bool :=
  match s with
  | EmptyString => true
  | String c s' => p c && str_forall p s'
  end.

Definition is_ascii (c : ascii) : bool := nat_of_ascii c <? 128.

(** The characters of the texts the program itself writes: the visible
    ASCII characters, the space, and tab, line feed, carriage return. *)
Definition printable (c : ascii) : bool :=
  let n := nat_of_ascii c in
  ((32 <=? n) && (n <=? 126)) || (n =? 9) || (n =? 10) || (n =? 13).

(** [str.capitalize], which the program applies to the three names of
    [severity_order] only: on ASCII letters, the first in upper case and
    the others in lower case. *)
Definition capitalize (s : string) : string :=
  match s with
  | EmptyString => EmptyString
  | String c s' => String (ascii_upper c) (str_map ascii_lower s')
  end.

Definition replace_char (old new : ascii) (s : string) : string :=
  str_map (fun c => if decide (c = old) then new else c) s.

(** Decimal rendering of a counter inside an f-string. *)
Definition str_of_nat (n : nat) : string :=
  NilZero.string_of_uint (Nat.to_uint n).

(** What an f-string prints for a cell: a missing value shows as
    [nan]. *)
Definition format (v : value) : string :=
  match v with
  | NaN => "nan"
  | Str s => s
  end.

(** ** The data of the program *)

(** A row of the table, with the five columns the program uses. *)
Record Row := mkRow {
  Host : value;
  Risk : value;
  Name : value;
  Description : value;
  Solution : value
}.

#[global] Instance Row_eq_dec : EqDecision Row.
Proof. solve_decision. Defined.

Abbreviation DataFrame := (list Row).

(** A finding, as the grouping loop builds it from a row. *)
Record Finding := mkFinding {
  title : value;
  description : value;
  solution : value;
  risk : value
}.

#[global] Instance Finding_eq_dec : EqDecision Finding.
Proof. solve_decision. Defined.

(** The two levels of [grouped], each a dictionary in insertion
    order. *)
Abbreviation Severities := (list (value * list Finding)).
Abbreviation Grouped := (list (value * Severities)).

(** What [plt.bar] and [plt.title] are given. *)
Record Chart := mkChart {
  chart_title : string;
  bars : list (string * nat);
  colors : list string
}.

#[global] Instance Chart_eq_dec : EqDecision Chart.
Proof. solve_decision. Defined.

(** The runs of a paragraph of a table cell. *)
Record Run := mkRun {
  run_text : string;
  run_bold : bool;
  run_size : option nat;
  run_font : option string;
  run_color : option string
}.

(** A table cell: the fills of its [w:shd] elements and its paragraphs,
    each a list of runs. *)
Record Cell := mkCell {
  shading : list string;
  paragraphs : list (list Run)
}.

(** The blocks of a document.  A table is represented by the cells of
    its single column; [autofit] and the removed borders, which every
    table gets alike, are not represented. *)
Inductive block :=
| PageBreak
| Paragraph (text style : string)
| Picture (file : string) (chart : Chart)
| Table (cells : list Cell).

#[global] Instance Run_eq_dec : EqDecision Run.
Proof. solve_decision. Defined.
#[global] Instance Cell_eq_dec : EqDecision Cell.
Proof. solve_decision. Defined.
#[global] Instance block_eq_dec : EqDecision block.
Proof. solve_decision. Defined.

Abbreviation Document := (list block).

(** ** What the libraries provide

    - [upper], [lower]: [str.upper] and [str.lower], also behind
      [Series.str.upper] and [Series.str.lower].  On ASCII texts they
      change the letters a-z and A-Z only; upper-casing twice is
      upper-casing once; and a text lower-cases to [none] exactly when
      it upper-cases to [NONE] (the only characters that map onto the
      letters of that word are those letters).
    - [xml_compatible]: whether the XML library accepts a text; it
      raises [ValueError] on a text with a control character.  The test
      goes character by character and accepts the characters of
      [printable].
    - [rgb_from_string]: the colour [RGBColor.from_string] reads, as the
      document stores it, or nothing when it raises. *)
Class Library := {
  upper : string -> string;
  lower : string -> string;
  xml_compatible : string -> bool;
  rgb_from_string : string -> option string;
  upper_ascii :
    forall s, str_forall is_ascii s = true -> upper s = str_map ascii_upper s;
  upper_idem : forall s, upper (upper s) = upper s;
  lower_none : forall s, lower s = "none" <-> upper s = "NONE";
  xml_empty : xml_compatible "" = true;
  xml_app :
    forall s t, xml_compatible (s +:+ t) = xml_compatible s && xml_compatible t;
  xml_printable :
    forall c, printable c = true -> xml_compatible (String c "") = true;
  rgb_white : rgb_from_string "FFFFFF" = Some "FFFFFF"
}.

(** The library on ASCII texts, on which the sample inputs are run: the
    case mappings of ASCII, the control-character test on bytes, and
    colours of six hexadecimal digits. *)
Definition is_hex (c : ascii) : bool :=
  let n := nat_of_ascii c in
  ((48 <=? n) && (n <=? 57)) || ((65 <=? n) && (n <=? 70))
  || ((97 <=? n) && (n <=? 102)).

Definition no_control (c : ascii) : bool :=
  let n := nat_of_ascii c in
  (32 <=? n) || (n =? 9) || (n =? 10) || (n =? 13).

Definition ascii_lib : Library.
Proof.
  refine {| upper := str_map ascii_upper;
            lower := str_map ascii_lower;
            xml_compatible := str_forall no_control;
            rgb_from_string := fun s =>
              if (String.length s =? 6) && str_forall is_hex s
              then Some (str_map ascii_upper s) else None |}.
  - reflexivity.
  - intros s. induction s as [|c s IH]; simpl; [reflexivity|]. rewrite IH.
    f_equal. destruct c as [[] [] [] [] [] [] [] []]; reflexivity.
  - assert (Hlu : forall s, str_map ascii_lower (str_map ascii_upper s)
                            = str_map ascii_lower s).
    { intros s. induction s as [|c s IH]; simpl; [reflexivity|]. rewrite IH.
      f_equal. destruct c as [[] [] [] [] [] [] [] []]; reflexivity. }
    assert (Hul : forall s, str_map ascii_upper (str_map ascii_lower s)
                            = str_map ascii_upper s).
    { intros s. induction s as [|c s IH]; simpl; [reflexivity|]. rewrite IH.
      f_equal. destruct c as [[] [] [] [] [] [] [] []]; reflexivity. }
    intros s. split; intros Hs.
    + rewrite <- Hul, Hs. reflexivity.
    + rewrite <- Hlu, Hs. reflexivity.
  - reflexivity.
  - intros s t. induction s as [|c s IH]; simpl; [reflexivity|].
    rewrite IH. apply andb_assoc.
  - intros c Hc. simpl. rewrite andb_true_r.
    unfold printable in Hc. unfold no_control.
    destruct (nat_of_ascii c =? 9), (nat_of_ascii c =? 10),
      (nat_of_ascii c =? 13); rewrite ?orb_true_r; try reflexivity.
    rewrite !orb_false_r in *. apply andb_true_iff in Hc as [Hc _]. exact Hc.
  - reflexivity.
Defined.

Section Model.
Context `{L : Library}.

(** ** The table *)

(** The dtype [read_csv] gives a column of texts and missing values: an
    all-missing column with at least one row is [float64], any other is
    [object]. *)
Inductive dtype := object | float64.

Definition notna (v : value) : bool :=
  match v with NaN => false | Str _ => true end.

Definition infer_dtype (col : list value) : dtype :=
  match col with
  | [] => object
  | _ :: _ => if existsb notna col then object else float64
  end.

(** [Series.str]: available on an [object] column only. *)
Definition str_accessor (dt : dtype) : outcome unit :=
  match dt with
  | object => Ok tt
  | float64 => Raise AttributeError
  end.

(** Element-wise [.str.lower()], [.str.upper()], [.eq(text)] and
    [.replace({old: new})]; the string methods leave a missing value
    missing and [eq] is false on it. *)
Definition str_lower (v : value) : value :=
  match v with NaN => NaN | Str s => Str (lower s) end.

Definition str_upper (v : value) : value :=
  match v with NaN => NaN | Str s => Str (upper s) end.

Definition eq_text (v : value) (t : string) : bool :=
  match v with NaN => false | Str s => bool_decide (s = t) end.

Definition replace_value (old new : string) (v : value) : value :=
  if decide (v = Str old) then Str new else v.

Definition set_Risk (r : Row) (v : value) : Row :=
  {| Host := Host r; Risk := v; Name := Name r;
     Description := Description r; Solution := Solution r |}.

(** Lines 82-83 of [generate_report]: the two boolean-mask selections. *)
Definition filter_rows (df : DataFrame) : outcome DataFrame :=
  let risk_dtype := infer_dtype (map Risk df) in
  let df := List.filter (fun r => notna (Risk r)) df in
  _ ← str_accessor risk_dtype;
  Ok (List.filter (fun r => negb (eq_text (str_lower (Risk r)) "none")) df).

(** Lines 84-86: the normalized severity replaces the [Risk] column. *)
Definition normalize_risk (v : value) : value :=
  replace_value "HIGH" "CRITICAL" (str_upper v).

Definition normalize_row (r : Row) : Row :=
  set_Risk r (normalize_risk (Risk r)).

Definition normalize (df : DataFrame) : outcome DataFrame :=
  kept ← filter_rows df;
  Ok (map normalize_row kept).

(** ** Grouping *)

(** A [dict] keeps its keys in insertion order: an association list
    with one entry per key.  Keys are compared as Python compares the
    cells of a text column, where every missing value is the one object
    [np.nan]. *)
Section Dict.
Context {K V : Type} `{EqDecision K}.

Fixpoint dict_get (k : K) (d : list (K * V)) : option V :=
  match d with
  | [] => None
  | (k', v) :: d' => if decide (k' = k) then Some v else dict_get k d'
  end.

(** [d[k]] on a [defaultdict], followed by the in-place update [f] of
    what it returns: a missing key is first inserted, last, with the
    default value. *)
Fixpoint dd_update (dflt : V) (k : K) (f : V -> V) (d : list (K * V))
  : list (K * V) :=
  match d with
  | [] => [(k, f dflt)]
  | (k', v) :: d' =>
      if decide (k' = k) then (k', f v) :: d'
      else (k', v) :: dd_update dflt k f d'
  end.
End Dict.

Definition finding_of_row (row : Row) : Finding :=
  {| title := Name row; description := Description row;
     solution := Solution row; risk := Risk row |}.

(** One turn of the loop of lines 89-95:
    [grouped[row['Host']][row['Risk']].append({...})]. *)
Definition group_row (grouped : Grouped) (row : Row) : Grouped :=
  dd_update [] (Host row)
    (dd_update [] (Risk row) (fun vulns => vulns ++ [finding_of_row row]))
    grouped.

Definition group (df : DataFrame) : Grouped := fold_left group_row df [].

(** ** Severity charts *)

Definition severity_order : list string := ["CRITICAL"; "MEDIUM"; "LOW"].

(** [Series.value_counts()]: the number of occurrences of each value
    that is not missing. *)
Definition value_counts (col : list value) : list (value * nat) :=
  fold_left
    (fun counts v => if notna v then dd_update 0 v S counts else counts)
    col [].

(** [.reindex(labels, fill_value=fill)]. *)
Definition reindex (labels : list string) (fill : nat)
    (counts : list (value * nat)) : list (string * nat) :=
  map (fun l => (l, default fill (dict_get (Str l) counts))) labels.

Definition severity_counts (df : DataFrame) : list (string * nat) :=
  reindex severity_order 0 (value_counts (map Risk df)).

(** ** The document *)

Definition add_page_break (doc : Document) : Document := doc ++ [PageBreak].

(** A cell of a fresh table holds one empty paragraph. *)
Definition new_cell : Cell := {| shading := []; paragraphs := [[]] |}.

(** A method call on a cell: a missing value is a float and has no
    string methods. *)
Definition str_method (v : value) : outcome string :=
  match v with
  | Str s => Ok s
  | NaN => Raise AttributeError
  end.

(** [p.add_run(text)]: nothing is written for an empty text; otherwise
    the characters of [text] are iterated over, and a missing value is
    not iterable; the XML library then rejects a text it finds
    incompatible. *)
Definition add_run (text : value) : outcome string :=
  match text with
  | Str EmptyString => Ok EmptyString
  | Str s => if xml_compatible s then Ok s else Raise ValueError
  | NaN => Raise TypeError
  end.

(** [doc.add_paragraph(text, style=style)]. *)
Definition doc_add_paragraph (doc : Document) (text style : string)
    : outcome Document :=
  s ← add_run (Str text);
  Ok (doc ++ [Paragraph s style]).

Definition get_severity_color (severity : string) : string :=
  let severity := upper severity in
  if bool_decide (severity = "CRITICAL") || bool_decide (severity = "HIGH")
  then "FF0000"
  else if bool_decide (severity = "MEDIUM") then "FFA500"
  else if bool_decide (severity = "LOW") then "FFFF00"
  else "D3D3D3".

Definition set_cell_background (cell : Cell) (rgb_hex : string) : Cell :=
  {| shading := shading cell ++ [rgb_hex]; paragraphs := paragraphs cell |}.

(** Lines 48-49: an empty colour is no colour, and a colour that
    [RGBColor.from_string] cannot read raises. *)
Definition font_color (color : option string) : outcome (option string) :=
  match color with
  | None => Ok None
  | Some EmptyString => Ok None
  | Some c =>
      match rgb_from_string c with
      | Some rgb => Ok (Some rgb)
      | None => Raise ValueError
      end
  end.

Definition add_paragraph (cell : Cell) (text : value) (bold : bool)
    (size : nat) (color : option string) : outcome Cell :=
  s ← add_run text;
  rgb ← font_color color;
  let run := {| run_text := s; run_bold := bold; run_size := Some size;
                run_font := Some "Aptos"; run_color := rgb |} in
  Ok {| shading := shading cell;
        paragraphs := match paragraphs cell with
                      | [] => [[run]]
                      | p :: ps => (p ++ [run]) :: ps
                      end |}.

(** [cell.add_paragraph(text)] of the document library: a new paragraph,
    with one plain run unless the text is empty. *)
Definition cell_add_paragraph (cell : Cell) (text : value) : outcome Cell :=
  runs ← match text with
         | Str EmptyString => Ok []
         | _ =>
             s ← add_run text;
             Ok [{| run_text := s; run_bold := false; run_size := None;
                    run_font := None; run_color := None |}]
         end;
  Ok {| shading := shading cell; paragraphs := paragraphs cell ++ [runs] |}.

(** ** Effects: the files on disk and the calls that may fail *)

(** Whether the drawing library can write an image at a path, whether
    the document library accepts the image at a path, and whether the
    document can be written at a path. *)
Record Env := mkEnv {
  savefig_ok : string -> bool;
  add_picture_ok : string -> bool;
  save_ok : string -> bool
}.

(** A computation reads and changes the set of files present; what it
    changed before raising stays changed. *)
Definition M (A : Type) : Type := gset string -> outcome A * gset string.

#[global] Instance M_ret : MRet M := fun A a files => (Ok a, files).
#[global] Instance M_bind : MBind M := fun A B f m files =>
  match m files with
  | (Ok a, files') => f a files'
  | (Raise e, files') => (Raise e, files')
  end.

Definition lift {A} (o : outcome A) : M A := fun files => (o, files).

Definition savefig (env : Env) (path : string) : M unit := fun files =>
  if savefig_ok env path then (Ok tt, {[path]} ∪ files)
  else (Raise SaveFigError, files).

Definition add_picture (env : Env) (document : Document) (path : string)
    (chart : Chart) : M Document := fun files =>
  if bool_decide (path ∈ files) then
    if add_picture_ok env path then (Ok (document ++ [Picture path chart]), files)
    else (Raise PictureError, files)
  else (Raise FileNotFoundError, files).

Definition os_remove (path : string) : M unit := fun files =>
  if bool_decide (path ∈ files) then (Ok tt, files ∖ {[path]})
  else (Raise FileNotFoundError, files).

Definition save (env : Env) (path : string) : M unit := fun files =>
  if save_ok env path then (Ok tt, {[path]} ∪ files)
  else (Raise SaveError, files).

Definition add_severity_chart (env : Env) (df : DataFrame)
    (document : Document) (chart_name title : string) : M Document :=
  let chart := {| chart_title := title; bars := severity_counts df;
                  colors := ["red"; "orange"; "yellow"] |} in
  _ ← savefig env chart_name;
  document ← add_picture env document chart_name chart;
  _ ← os_remove chart_name;
  mret document.

(** ** Rendering *)

Definition nl : string := String "010"%char EmptyString.

(** Lines 137-163: the five cells of the table of one finding.  The
    source fills the table after adding it to the document; here it is
    filled first and added by the caller, which differs only in the
    document a raise leaves behind, and that document is dropped. *)
Definition render_table (vuln : Finding) : outcome (list Cell) :=
  severity ← str_method (risk vuln);
  let cell := set_cell_background new_cell (get_severity_color severity) in
  cell ← add_paragraph cell (title vuln) true 16 (Some "FFFFFF");
  risk_cell ← add_paragraph new_cell (Str ("Risk: " +:+ format (risk vuln)))
                true 12 None;
  desc_cell ← add_paragraph new_cell (Str "Description:") true 12 None;
  desc_cell ← cell_add_paragraph desc_cell (description vuln);
  impact_cell ← add_paragraph new_cell (Str "Impact:") true 12 None;
  impact_cell ← cell_add_paragraph impact_cell
                  (Str "Impact information not available.");
  let sol_cell := set_cell_background new_cell "9ACD32" in
  sol_cell ← add_paragraph sol_cell (Str "Remediation:") true 12 None;
  sol_cell ← cell_add_paragraph sol_cell (solution vuln);
  Ok [cell; risk_cell; desc_cell; impact_cell; sol_cell].

(** The loop of line 133, [j] being the number of the next finding. *)
Fixpoint render_vulns (host_count i : nat) (vulns : list Finding) (j : nat)
    (doc : Document) : outcome Document :=
  match vulns with
  | [] => Ok doc
  | vuln :: vulns =>
      doc ← doc_add_paragraph doc
        ("3." +:+ str_of_nat host_count +:+ "." +:+ str_of_nat i +:+ "."
         +:+ str_of_nat j +:+ " " +:+ format (title vuln)) "Heading 4";
      table ← render_table vuln;
      let doc := doc ++ [Table table] in
      let doc := add_page_break doc in
      render_vulns host_count i vulns (S j) doc
  end.

(** The loop of line 125 over [enumerate(severity_order, start=1)]. *)
Fixpoint render_severities (host_count : nat) (severities : Severities)
    (order : list string) (i : nat) (doc : Document) : outcome Document :=
  match order with
  | [] => Ok doc
  | severity :: order =>
      match dict_get (Str severity) severities with
      | None => render_severities host_count severities order (S i) doc
      | Some vulns =>
          doc ← doc_add_paragraph doc
            ("3." +:+ str_of_nat host_count +:+ "." +:+ str_of_nat i +:+ " "
             +:+ capitalize severity +:+ " Vulnerabilities") "Heading 3";
          doc ← render_vulns host_count i vulns 1 doc;
          render_severities host_count severities order (S i) doc
      end
  end.

(** [df[df['Host'] == host]]: a missing cell equals nothing. *)
Definition host_rows (df : DataFrame) (host : string) : DataFrame :=
  List.filter (fun r => eq_text (Host r) host) df.

(** The loop of line 115 over [grouped.items()]. *)
Fixpoint render_hosts (env : Env) (df : DataFrame) (items : Grouped)
    (host_count : nat) (doc : Document) : M Document :=
  match items with
  | [] => mret doc
  | (host, severities) :: items =>
      let host_count := S host_count in
      doc ← lift (doc_add_paragraph doc
        ("3." +:+ str_of_nat host_count +:+ " " +:+ format host) "Heading 2");
      h ← lift (str_method host);
      let host_df := host_rows df h in
      let chart_file := replace_char "."%char "_"%char h +:+ "_chart.png" in
      doc ← add_severity_chart env host_df doc chart_file
              (h +:+ " - Vulnerabilities by Severity");
      doc ← lift (render_severities host_count severities severity_order 1 doc);
      render_hosts env df items host_count doc
  end.

Definition generate_report (env : Env) (template : Document)
    (output_path : string) (df : DataFrame) : M Document :=
  df ← lift (normalize df);
  let grouped := group df in
  let doc := template in
  let doc := add_page_break doc in
  doc ← lift (doc_add_paragraph doc "1. Statistics" "Heading 1");
  doc ← add_severity_chart env df doc "severity_chart.png"
          "Vulnerabilities by Severity";
  doc ← lift (doc_add_paragraph doc nl "Normal");
  let doc := add_page_break doc in
  doc ← lift (doc_add_paragraph doc "2. Executive Summary" "Heading 1");
  doc ← lift (doc_add_paragraph doc ("Add executive summary here..." +:+ nl)
                "Normal");
  let doc := add_page_break doc in
  doc ← lift (doc_add_paragraph doc "3. Vulnerabilities and Remediations"
                "Heading 1");
  doc ← render_hosts env df grouped 0 doc;
  _ ← save env output_path;
  mret doc.

(** ** The report, described from the kept rows

    The definitions of this section are the reference the program is
    compared with: they say, without loops or mutation, which rows are
    dropped and what the document holds. *)

(** A row is excluded when its severity is missing or reads [none] in
    any letter case. *)
Definition excluded (r : Row) : bool :=
  match Risk r with
  | NaN => true
  | Str s => bool_decide (lower s = "none")
  end.

(** The table the report is built from: the rows that are not
    excluded, in their order, with the normalized severity. *)
Definition kept_rows (df : DataFrame) : DataFrame :=
  map normalize_row (List.filter (fun r => negb (excluded r)) df).

(** The distinct elements of a list, in the order of their first
    occurrence. *)
Fixpoint first_seen {A} `{EqDecision A} (l : list A) : list A :=
  match l with
  | [] => []
  | x :: l' => x :: List.filter (fun y => negb (bool_decide (y = x))) (first_seen l')
  end.

(** Filing an element under its key in a [defaultdict], and the value a
    key ends with: the updates of the elements that carry it, in
    order. *)
Section GroupByDefs.
Context {X K V : Type} `{EqDecision K}.
Variables (key : X -> K) (upd : X -> V -> V) (dflt : V).

Definition file_under (d : list (K * V)) (x : X) : list (K * V) :=
  dd_update dflt (key x) (upd x) d.

Definition fold_of (k : K) (l : list X) : V :=
  fold_left (fun v x => upd x v)
    (List.filter (fun x => bool_decide (key x = k)) l) dflt.
End GroupByDefs.

(** The rows of a group, in the order of the table. *)
Definition rows_of (df : DataFrame) (host severity : value) : DataFrame :=
  List.filter
    (fun r => bool_decide (Host r = host) && bool_decide (Risk r = severity)) df.

Definition findings_of (df : DataFrame) (host severity : value) : list Finding :=
  map finding_of_row (rows_of df host severity).

(** The inner dictionary of a host: its severities in order of first
    occurrence among the rows of the host. *)
Definition severities_of (df : DataFrame) (host : value) : Severities :=
  map (fun s => (s, findings_of df host s))
    (first_seen (map Risk (List.filter (fun r => bool_decide (Host r = host)) df))).

(** [grouped[host][severity]], empty when a key is absent. *)
Definition grouped_at (grouped : Grouped) (host severity : value) : list Finding :=
  default [] (severities ← dict_get host grouped; dict_get severity severities).

Definition count_of (df : DataFrame) (label : string) : nat :=
  length (List.filter (fun r => bool_decide (Risk r = Str label)) df).

Definition total (counts : list (string * nat)) : nat :=
  foldr (fun c n => c.2 + n) 0 counts.

Definition in_order (severity : value) : bool :=
  bool_decide (severity ∈ map Str severity_order).

Definition bold_run (s : string) (size : nat) (color : option string) : Run :=
  {| run_text := s; run_bold := true; run_size := Some size;
     run_font := Some "Aptos"; run_color := color |}.

Definition plain_paragraph (s : string) : list Run :=
  match s with
  | EmptyString => []
  | _ => [{| run_text := s; run_bold := false; run_size := None;
             run_font := None; run_color := None |}]
  end.

(** The table of a finding whose fields are all texts. *)
Definition table_of (f : Finding) : list Cell :=
  [ {| shading := [get_severity_color (format (risk f))];
       paragraphs := [[bold_run (format (title f)) 16 (Some "FFFFFF")]] |};
    {| shading := [];
       paragraphs := [[bold_run ("Risk: " +:+ format (risk f)) 12 None]] |};
    {| shading := [];
       paragraphs := [[bold_run "Description:" 12 None];
                      plain_paragraph (format (description f))] |};
    {| shading := [];
       paragraphs := [[bold_run "Impact:" 12 None];
                      plain_paragraph "Impact information not available."] |};
    {| shading := ["9ACD32"];
       paragraphs := [[bold_run "Remediation:" 12 None];
                      plain_paragraph (format (solution f))] |} ].

Definition finding_block (host_count i j : nat) (f : Finding) : Document :=
  [ Paragraph ("3." +:+ str_of_nat host_count +:+ "." +:+ str_of_nat i +:+ "."
               +:+ str_of_nat j +:+ " " +:+ format (title f)) "Heading 4";
    Table (table_of f);
    PageBreak ].

Definition severity_heading (host_count i : nat) (severity : string) : block :=
  Paragraph ("3." +:+ str_of_nat host_count +:+ "." +:+ str_of_nat i +:+ " "
             +:+ capitalize severity +:+ " Vulnerabilities") "Heading 3".

Definition severity_section (df : DataFrame) (host_count : nat) (host : value)
    (i : nat) (severity : string) : Document :=
  match findings_of df host (Str severity) with
  | [] => []
  | vulns =>
      severity_heading host_count i severity
      :: concat (imap (fun j f => finding_block host_count i (S j) f) vulns)
  end.

Definition chart_file_of (host : value) : string :=
  replace_char "."%char "_"%char (format host) +:+ "_chart.png".

Definition host_chart (df : DataFrame) (host : value) : block :=
  Picture (chart_file_of host)
    {| chart_title := format host +:+ " - Vulnerabilities by Severity";
       bars := severity_counts (host_rows df (format host));
       colors := ["red"; "orange"; "yellow"] |}.

Definition host_heading (host_count : nat) (host : value) : block :=
  Paragraph ("3." +:+ str_of_nat host_count +:+ " " +:+ format host) "Heading 2".

Definition host_section (df : DataFrame) (host_count : nat) (host : value)
    : Document :=
  [host_heading host_count host; host_chart df host]
  ++ concat (imap (fun i severity =>
                     severity_section df host_count host (S i) severity)
               severity_order).

Definition statistics_section (df : DataFrame) : Document :=
  [ Paragraph "1. Statistics" "Heading 1";
    Picture "severity_chart.png"
      {| chart_title := "Vulnerabilities by Severity";
         bars := severity_counts df;
         colors := ["red"; "orange"; "yellow"] |};
    Paragraph nl "Normal";
    PageBreak ].

Definition executive_summary_section : Document :=
  [ Paragraph "2. Executive Summary" "Heading 1";
    Paragraph ("Add executive summary here..." +:+ nl) "Normal";
    PageBreak ].

Definition hosts_of (df : DataFrame) : list value := first_seen (map Host df).

Definition report_layout (df : DataFrame) : Document :=
  [PageBreak]
  ++ statistics_section df
  ++ executive_summary_section
  ++ [Paragraph "3. Vulnerabilities and Remediations" "Heading 1"]
  ++ concat (imap (fun k host => host_section df (S k) host) (hosts_of df)).

(** A cell the document takes: a text that the XML library accepts. *)
Definition text_ok (v : value) : bool :=
  match v with
  | NaN => false
  | Str s => xml_compatible s
  end.

(** A kept row can be rendered when its host is a text the document
    takes and, if its severity is one the renderer walks, so are its
    name, description and solution. *)
Definition renderable_row (r : Row) : bool :=
  text_ok (Host r)
  && (negb (in_order (Risk r))
      || (text_ok (Name r) && text_ok (Description r) && text_ok (Solution r))).

Definition renderable (df : DataFrame) : bool := forallb renderable_row df.

(** The environment lets every chart of the report be drawn and
    embedded, and the document be written. *)
Definition charts_ok (env : Env) (files : list string) : bool :=
  forallb (fun f => savefig_ok env f && add_picture_ok env f) files.

Definition env_ok (env : Env) (output_path : string) (df : DataFrame) : bool :=
  charts_ok env ("severity_chart.png" :: map chart_file_of (hosts_of df))
  && save_ok env output_path.

(** The same conditions, group by group, as the renderer meets them. *)
Definition renderable_finding (f : Finding) : bool :=
  text_ok (risk f) && text_ok (title f) && text_ok (description f)
  && text_ok (solution f).

Definition group_ok (df : DataFrame) (host : value) (severity : string) : bool :=
  forallb renderable_finding (findings_of df host (Str severity)).

Definition host_ok (env : Env) (df : DataFrame) (host : value) : bool :=
  text_ok host
  && (savefig_ok env (chart_file_of host)
      && add_picture_ok env (chart_file_of host))
  && forallb (group_ok df host) severity_order.

(** The headings of hosts and severities, in document order. *)
Definition outline (doc : Document) : list string :=
  omap (fun b => match b with
                 | Paragraph text style =>
                     if bool_decide (style = "Heading 2")
                        || bool_decide (style = "Heading 3")
                     then Some text else None
                 | _ => None
                 end) doc.

Definition tables (doc : Document) : list (list Cell) :=
  omap (fun b => match b with Table cells => Some cells | _ => None end) doc.

Definition charts (doc : Document) : list Chart :=
  omap (fun b => match b with Picture _ c => Some c | _ => None end) doc.

(** The outline the report is expected to have: one line per host, in
    order of first occurrence, each followed by the lines of the
    severities it has, in the fixed order. *)
Definition severity_line (df : DataFrame) (host_count : nat) (host : value)
    (i : nat) (severity : string) : list string :=
  match rows_of df host (Str severity) with
  | [] => []
  | _ => ["3." +:+ str_of_nat host_count +:+ "." +:+ str_of_nat i +:+ " "
          +:+ capitalize severity +:+ " Vulnerabilities"]
  end.

Definition host_outline (df : DataFrame) (host_count : nat) (host : value)
    : list string :=
  ("3." +:+ str_of_nat host_count +:+ " " +:+ format host)
  :: concat (imap (fun i severity =>
                     severity_line df host_count host (S i) severity)
               severity_order).

Definition report_outline (df : DataFrame) : list string :=
  concat (imap (fun k host => host_outline df (S k) host) (hosts_of df)).

(** The tables and the charts the report is expected to hold. *)
Definition host_tables (df : DataFrame) (host : value) : list (list Cell) :=
  concat (map (fun severity => map table_of (findings_of df host (Str severity)))
            severity_order).

Definition report_tables (df : DataFrame) : list (list Cell) :=
  concat (map (host_tables df) (hosts_of df)).

Definition chart_of (title : string) (scope : DataFrame) : Chart :=
  {| chart_title := title; bars := severity_counts scope;
     colors := ["red"; "orange"; "yellow"] |}.

Definition report_charts (df : DataFrame) : list Chart :=
  chart_of "Vulnerabilities by Severity" df
  :: map (fun host =>
            chart_of (format host +:+ " - Vulnerabilities by Severity")
              (host_rows df (format host)))
       (hosts_of df).

(** The fill of the title cell of a table. *)
Definition title_fill (cells : list Cell) : list string :=
  match cells with
  | [] => []
  | cell :: _ => shading cell
  end.

(** ** The report in the words of the specification

    The colour of each rendered severity, the table of a finding of a
    severity, the bars of a scope and the rows of a host, written
    without the functions of the program. *)
Definition severity_fill (severity : string) : string :=
  if bool_decide (severity = "CRITICAL") then "FF0000"
  else if bool_decide (severity = "MEDIUM") then "FFA500"
  else if bool_decide (severity = "LOW") then "FFFF00"
  else "D3D3D3".

Definition expected_table (severity : string) (name desc sol : value)
    : list Cell :=
  [ {| shading := [severity_fill severity];
       paragraphs := [[bold_run (format name) 16 (Some "FFFFFF")]] |};
    {| shading := [];
       paragraphs := [[bold_run ("Risk: " +:+ severity) 12 None]] |};
    {| shading := [];
       paragraphs := [[bold_run "Description:" 12 None];
                      plain_paragraph (format desc)] |};
    {| shading := [];
       paragraphs := [[bold_run "Impact:" 12 None];
                      plain_paragraph "Impact information not available."] |};
    {| shading := ["9ACD32"];
       paragraphs := [[bold_run "Remediation:" 12 None];
                      plain_paragraph (format sol)] |} ].

Definition rows_of_host (df : DataFrame) (host : value) : DataFrame :=
  List.filter (fun r => bool_decide (Host r = host)) df.

Definition expected_chart (title : string) (scope : DataFrame) : Chart :=
  {| chart_title := title;
     bars := map (fun label => (label, count_of scope label))
               ["CRITICAL"; "MEDIUM"; "LOW"];
     colors := ["red"; "orange"; "yellow"] |}.

(** The block of a row of a severity, numbered [host_count].[i].[j]:
    its heading, its table and a page break. *)
Definition expected_finding_block (host_count i j : nat) (severity : string)
    (r : Row) : Document :=
  [ Paragraph ("3." +:+ str_of_nat host_count +:+ "." +:+ str_of_nat i +:+ "."
               +:+ str_of_nat j +:+ " " +:+ format (Name r)) "Heading 4";
    Table (expected_table severity (Name r) (Description r) (Solution r));
    PageBreak ].

(** The section of a severity of a host: nothing when the host has no
    row of the severity, else a sub-heading and the blocks of the rows,
    in the order of the table. *)
Definition expected_severity_section (df : DataFrame) (host_count : nat)
    (host : value) (i : nat) (severity : string) : Document :=
  match rows_of df host (Str severity) with
  | [] => []
  | rows =>
      Paragraph ("3." +:+ str_of_nat host_count +:+ "." +:+ str_of_nat i +:+ " "
                 +:+ capitalize severity +:+ " Vulnerabilities") "Heading 3"
      :: concat (imap (fun j r =>
                         expected_finding_block host_count i (S j) severity r)
                   rows)
  end.

(** The section of a host: its heading, its chart, and its severities
    in the fixed order. *)
Definition expected_host_section (df : DataFrame) (host_count : nat)
    (host : value) : Document :=
  [ Paragraph ("3." +:+ str_of_nat host_count +:+ " " +:+ format host)
      "Heading 2";
    Picture (chart_file_of host)
      (expected_chart (format host +:+ " - Vulnerabilities by Severity")
         (rows_of_host df host)) ]
  ++ concat (imap (fun i severity =>
                     expected_severity_section df host_count host (S i) severity)
               ["CRITICAL"; "MEDIUM"; "LOW"]).

(** What a run appends to the template, given the kept rows: a page
    break, the statistics section with the global chart, the
    executive-summary placeholder, the heading of the third section and
    the sections of the hosts in order of first occurrence. *)
Definition expected_layout (df : DataFrame) : Document :=
  [ PageBreak;
    Paragraph "1. Statistics" "Heading 1";
    Picture "severity_chart.png"
      (expected_chart "Vulnerabilities by Severity" df);
    Paragraph nl "Normal";
    PageBreak;
    Paragraph "2. Executive Summary" "Heading 1";
    Paragraph ("Add executive summary here..." +:+ nl) "Normal";
    PageBreak;
    Paragraph "3. Vulnerabilities and Remediations" "Heading 1" ]
  ++ concat (imap (fun k host => expected_host_section df (S k) host)
               (first_seen (map Host df))).

(** The exception a cell raises when it is no text the document takes:
    a missing value cannot be iterated over, a text is refused by the
    XML library. *)
Definition text_error (v : value) : exn :=
  match v with
  | NaN => TypeError
  | Str _ => ValueError
  end.

(** The colour a run ends with: none when no colour or an empty one is
    given, else what [RGBColor.from_string] reads. *)
Definition color_of (color : option string) : option string :=
  match color with
  | None => None
  | Some EmptyString => None
  | Some c => rgb_from_string c
  end.

End Model.

(** [x] occurs in [l] before an occurrence of [y]. *)
Definition precedes {A} (x y : A) (l : list A) : Prop :=
  exists l1 l2 l3, l = l1 ++ x :: l2 ++ y :: l3.

(** ** Sample inputs *)

Definition all_ok : Env :=
  {| savefig_ok := fun _ => true; add_picture_ok := fun _ => true;
     save_ok := fun _ => true |}.

Definition embed_fails : Env :=
  {| savefig_ok := fun _ => true; add_picture_ok := fun _ => false;
     save_ok := fun _ => true |}.

(** An environment that refuses some paths the report does not use. *)
Definition picky : Env :=
  {| savefig_ok := fun _ => true;
     add_picture_ok := fun f => negb (bool_decide (f = "other_chart.png"));
     save_ok := fun f => bool_decide (f = "second.docx") |}.

Definition text_row (host severity name desc sol : string) : Row :=
  {| Host := Str host; Risk := Str severity; Name := Str name;
     Description := Str desc; Solution := Str sol |}.

(** The scenario of the specification, with a dropped row in between. *)
Definition scenario : DataFrame :=
  [ text_row "h1" "High" "A" "da" "sa";
    text_row "h1" "None" "N" "dn" "sn";
    text_row "h1" "Low" "B" "db" "sb";
    text_row "h2" "Medium" "C" "dc" "sc";
    text_row "h1" "high" "D" "dd" "sd" ].

Definition info_rows : DataFrame := [ text_row "h1" "Info" "A" "da" "sa" ].

Definition missing_name_rows : DataFrame :=
  [ {| Host := Str "h1"; Risk := Str "Low"; Name := NaN;
       Description := Str "da"; Solution := Str "sa" |} ].

(** ** Further reference definitions *)

(** Every finding of every group, host by host and severity by severity
    in the order of the dictionaries. *)
Definition all_findings (grouped : Grouped) : list Finding :=
  concat (map (fun entry => concat (map snd entry.2)) grouped).

(** The image files a run may write: the global chart and the chart of
    each host. *)
Definition chart_files (df : DataFrame) : list string :=
  "severity_chart.png" :: map chart_file_of (hosts_of df).

(** The height of the bar of a label in a chart. *)
Definition bar (label : string) (c : Chart) : nat :=
  default 0 (dict_get label (bars c)).

(** Tables with no kept row, with a kept row lacking a host, and with
    no severity at all. *)
Definition only_excluded : DataFrame :=
  [ text_row "h1" "None" "A" "da" "sa"; text_row "h2" "NONE" "B" "db" "sb" ].

Definition missing_host_rows : DataFrame :=
  [ text_row "h1" "Low" "A" "da" "sa";
    {| Host := NaN; Risk := Str "Info"; Name := Str "B";
       Description := Str "db"; Solution := Str "sb" |} ].

Definition all_missing_rows : DataFrame :=
  [ {| Host := Str "h1"; Risk := NaN; Name := Str "A";
       Description := Str "da"; Solution := Str "sa" |} ].

(** * Properties *)

Section Properties.
Context `{L : Library}.


(** ** Texts the document takes *)

Lemma xml_cons (c : ascii) (s : string) :
  xml_compatible (String c s) = xml_compatible (String c "") && xml_compatible s.
Proof. exact (xml_app (String c "") s). Qed.

Lemma xml_printable_text (s : string) :
  str_forall printable s = true -> xml_compatible s = true.
Proof.
  induction s as [|c s IH]; simpl; [intros _; apply xml_empty|].
  intros H. apply andb_true_iff in H as [Hc Hs].
  by rewrite xml_cons, (xml_printable c Hc), (IH Hs).
Qed.

Lemma printable_string_of_uint (d : Decimal.uint) :
  str_forall printable (NilEmpty.string_of_uint d) = true.
Proof. induction d; simpl; done. Qed.

Lemma xml_str_of_nat (n : nat) : xml_compatible (str_of_nat n) = true.
Proof.
  apply xml_printable_text. unfold str_of_nat, NilZero.string_of_uint.
  destruct (Nat.to_uint n) eqn:E; try done;
    rewrite <- E; apply printable_string_of_uint.
Qed.

Lemma add_run_ok (s : string) : xml_compatible s = true -> add_run (Str s) = Ok s.
Proof. intros H. unfold add_run. rewrite H. by destruct s. Qed.

Lemma add_run_fail (v : value) : text_ok v = false -> is_ok (add_run v) = false.
Proof.
  destruct v as [|s]; [done|]. simpl. intros H. rewrite H.
  destruct s; [|done]. by rewrite xml_empty in H.
Qed.

Lemma doc_add_paragraph_ok (doc : Document) (text style : string) :
  xml_compatible text = true ->
  doc_add_paragraph doc text style = Ok (doc ++ [Paragraph text style]).
Proof. intros H. unfold doc_add_paragraph. by rewrite (add_run_ok _ H). Qed.

Lemma doc_add_paragraph_fail (doc : Document) (text style : string) :
  xml_compatible text = false -> is_ok (doc_add_paragraph doc text style) = false.
Proof.
  intros H. unfold doc_add_paragraph.
  pose proof (add_run_fail (Str text) H) as Hf. by destruct (add_run (Str text)).
Qed.

Lemma upper_printable_const (s : string) :
  str_forall is_ascii s = true -> str_map ascii_upper s = s -> upper s = s.
Proof. intros Ha Hs. by rewrite (upper_ascii s Ha). Qed.

Lemma upper_order (severity : string) :
  severity ∈ severity_order -> upper severity = severity.
Proof.
  intros H. unfold severity_order in H.
  rewrite !elem_of_cons, elem_of_nil in H.
  destruct H as [->|[->|[->|[]]]]; by apply upper_printable_const.
Qed.

Lemma get_severity_color_order (severity : string) :
  severity ∈ severity_order -> get_severity_color severity = severity_fill severity.
Proof.
  intros H. unfold get_severity_color. rewrite (upper_order _ H).
  unfold severity_order in H. rewrite !elem_of_cons, elem_of_nil in H.
  destruct H as [->|[->|[->|[]]]]; reflexivity.
Qed.

(** ** Loading and normalization *)

Lemma masks_excluded (df : DataFrame) :
  List.filter (fun r => negb (eq_text (str_lower (Risk r)) "none"))
    (List.filter (fun r => notna (Risk r)) df)
  = List.filter (fun r => negb (excluded r)) df.
Proof.
  induction df as [|r df IH]; [done|].
  unfold excluded in *. simpl. destruct (Risk r) as [|s] eqn:E; simpl.
  - exact IH.
  - rewrite E. simpl. destruct (bool_decide (lower s = "none")); simpl; by rewrite IH.
Qed.

Lemma normalize_object (df : DataFrame) :
  infer_dtype (map Risk df) = object -> normalize df = Ok (kept_rows df).
Proof.
  intros Hdt. unfold normalize, filter_rows, kept_rows. rewrite Hdt. simpl.
  by rewrite masks_excluded.
Qed.

Lemma normalize_Ok (df kd : DataFrame) :
  normalize df = Ok kd ->
  infer_dtype (map Risk df) = object /\ kd = kept_rows df.
Proof.
  intros H. destruct (infer_dtype (map Risk df)) eqn:Hdt.
  - split; [done|]. rewrite (normalize_object df Hdt) in H. congruence.
  - unfold normalize, filter_rows in H. rewrite Hdt in H. discriminate.
Qed.

Lemma kept_rows_Risk (df : DataFrame) (r : Row) :
  r ∈ kept_rows df -> exists s, Risk r = Str s.
Proof.
  unfold kept_rows. rewrite list_elem_of_In, in_map_iff.
  intros (r0 & <- & Hin). apply filter_In in Hin as [_ Hex].
  unfold excluded in Hex. unfold normalize_row, normalize_risk, replace_value.
  simpl. destruct (Risk r0) as [|s]; [done|].
  simpl. destruct (decide (Str (upper s) = Str "HIGH")); eauto.
Qed.

Lemma upper_HIGH_not_none (s : string) : upper s = "HIGH" -> lower s <> "none".
Proof. intros Hu Hl. apply lower_none in Hl. congruence. Qed.

(** ** Dictionaries and first occurrences *)

Section FirstSeen.
Context {A : Type} `{EqDecision A}.
Implicit Types l : list A.

Lemma elem_of_first_seen l x : x ∈ first_seen l <-> x ∈ l.
Proof.
  revert x. induction l as [|a l IH]; intros x; [done|]. simpl.
  rewrite !elem_of_cons, list_elem_of_In, filter_In, <- list_elem_of_In, IH.
  rewrite negb_true_iff, bool_decide_eq_false.
  destruct (decide (x = a)); tauto.
Qed.

Lemma NoDup_List_filter (p : A -> bool) l : NoDup l -> NoDup (List.filter p l).
Proof.
  induction 1 as [|a l Hin Hnd IH]; simpl; [constructor|].
  destruct (p a); [|done]. constructor; [|done].
  rewrite list_elem_of_In, filter_In, <- list_elem_of_In. tauto.
Qed.

Lemma NoDup_first_seen l : NoDup (first_seen l).
Proof.
  induction l as [|a l IH]; simpl; constructor.
  - rewrite list_elem_of_In, filter_In, negb_true_iff, bool_decide_eq_false.
    tauto.
  - by apply NoDup_List_filter.
Qed.

Lemma first_seen_snoc l x :
  first_seen (l ++ [x])
  = first_seen l ++ (if decide (x ∈ l) then [] else [x]).
Proof.
  induction l as [|a l IH]; simpl; [done|].
  rewrite IH, List.filter_app. f_equal. f_equal.
  destruct (decide (x ∈ l)) as [Hin|Hin];
    destruct (decide (x ∈ a :: l)) as [Hin'|Hin']; simpl; try done.
  - exfalso. apply Hin'. by right.
  - apply elem_of_cons in Hin' as [->|?]; [|done].
    by rewrite bool_decide_eq_true_2.
  - rewrite bool_decide_eq_false_2; [done|]. intros ->. apply Hin'. by left.
Qed.
End FirstSeen.

Section DictFacts.
Context {K V : Type} `{EqDecision K}.
Implicit Types (ks : list K) (F : K -> V).

Lemma dict_get_map F ks k :
  dict_get k (map (fun k' => (k', F k')) ks)
  = if decide (k ∈ ks) then Some (F k) else None.
Proof.
  induction ks as [|k0 ks IH]; simpl; [done|].
  destruct (decide (k0 = k)) as [->|Hne].
  - by rewrite decide_True by left.
  - rewrite IH. destruct (decide (k ∈ ks)) as [Hin|Hin].
    + by rewrite decide_True by by right.
    + rewrite decide_False; [done|]. rewrite elem_of_cons. intros [?|?]; congruence.
Qed.

Lemma dd_update_map_absent (dflt : V) k f F ks :
  k ∉ ks ->
  dd_update dflt k f (map (fun k' => (k', F k')) ks)
  = map (fun k' => (k', F k')) ks ++ [(k, f dflt)].
Proof.
  induction ks as [|k0 ks IH]; simpl; [done|].
  rewrite not_elem_of_cons. intros [Hne Hin].
  rewrite decide_False by done. by rewrite IH.
Qed.

Lemma dd_update_map_present (dflt : V) k f F ks :
  NoDup ks -> k ∈ ks ->
  dd_update dflt k f (map (fun k' => (k', F k')) ks)
  = map (fun k' => (k', if decide (k' = k) then f (F k') else F k')) ks.
Proof.
  induction 1 as [|k0 ks Hnin Hnd IH]; [by rewrite elem_of_nil|].
  rewrite elem_of_cons. intros Hin. simpl.
  destruct (decide (k0 = k)) as [->|Hne].
  - f_equal. apply map_ext_in. intros k' Hk'.
    rewrite decide_False; [done|]. intros ->.
    by apply Hnin, list_elem_of_In.
  - f_equal. apply IH. destruct Hin as [->|?]; done.
Qed.
End DictFacts.

(** A loop that files each element under its key builds, for every key
    in order of first occurrence, the fold of that key's elements. *)
Section GroupBy.
Context {X K V : Type} `{EqDecision K}.
Variables (key : X -> K) (upd : X -> V -> V) (dflt : V).

Lemma filter_key_absent (l : list X) (k : K) :
  k ∉ map key l -> List.filter (fun x => bool_decide (key x = k)) l = [].
Proof.
  induction l as [|x l IH]; simpl; [done|].
  rewrite not_elem_of_cons. intros [Hne Hin].
  rewrite bool_decide_eq_false_2 by done. by apply IH.
Qed.

Lemma fold_left_file_under (l : list X) :
  fold_left (file_under key upd dflt) l []
  = map (fun k => (k, fold_of key upd dflt k l)) (first_seen (map key l)).
Proof.
  induction l as [|x l IH] using rev_ind; [done|].
  rewrite fold_left_app, IH, List.map_app. simpl. rewrite first_seen_snoc.
  unfold file_under at 1.
  destruct (decide (key x ∈ map key l)) as [Hin|Hin].
  - rewrite dd_update_map_present;
      [|apply NoDup_first_seen|by apply elem_of_first_seen].
    rewrite app_nil_r. apply map_ext. intros k. f_equal.
    unfold fold_of. rewrite List.filter_app, fold_left_app. simpl.
    destruct (decide (k = key x)) as [->|Hne].
    + by rewrite bool_decide_eq_true_2.
    + by rewrite bool_decide_eq_false_2.
  - rewrite dd_update_map_absent by by rewrite elem_of_first_seen.
    rewrite List.map_app. simpl. f_equal.
    + apply map_ext_in. intros k Hk. f_equal.
      unfold fold_of. rewrite List.filter_app, fold_left_app. simpl.
      rewrite bool_decide_eq_false_2; [done|]. intros Heq.
      apply Hin. rewrite Heq. by apply elem_of_first_seen, list_elem_of_In.
    + unfold fold_of.
      rewrite List.filter_app, fold_left_app, (filter_key_absent l (key x)) by done.
      simpl. by rewrite bool_decide_eq_true_2.
Qed.
End GroupBy.

(** ** Grouping *)

Lemma filter_filter_and {A} (p q : A -> bool) (l : list A) :
  List.filter q (List.filter p l) = List.filter (fun x => p x && q x) l.
Proof.
  induction l as [|x l IH]; simpl; [done|].
  destruct (p x); simpl; [destruct (q x)|]; by rewrite IH.
Qed.

Lemma fold_left_append {A B} (f : A -> B) (l : list A) (acc : list B) :
  fold_left (fun v x => v ++ [f x]) l acc = acc ++ map f l.
Proof.
  revert acc. induction l as [|x l IH]; intros acc; simpl.
  - by rewrite app_nil_r.
  - by rewrite IH, <- app_assoc.
Qed.

Lemma group_severities_of (df : DataFrame) :
  group df = map (fun h => (h, severities_of df h)) (hosts_of df).
Proof.
  unfold group.
  change group_row with
    (file_under Host
       (fun row : Row =>
          dd_update [] (Risk row) (fun vulns => vulns ++ [finding_of_row row]))
       ([] : Severities)).
  rewrite fold_left_file_under. apply map_ext. intros h. f_equal.
  unfold fold_of, severities_of.
  change (fun (v : Severities) (x : Row) =>
            dd_update [] (Risk x) (fun vulns => vulns ++ [finding_of_row x]) v)
    with (file_under Risk (fun (row : Row) (vulns : list Finding) =>
                             vulns ++ [finding_of_row row]) []).
  rewrite fold_left_file_under. apply map_ext. intros s. f_equal.
  unfold fold_of, findings_of, rows_of.
  by rewrite fold_left_append, filter_filter_and.
Qed.

Lemma rows_of_nil_host (df : DataFrame) (h s : value) :
  h ∉ map Host df -> rows_of df h s = [].
Proof.
  intros Hin. unfold rows_of. induction df as [|r df IH]; simpl; [done|].
  simpl in Hin. apply not_elem_of_cons in Hin as [Hne Hin].
  rewrite bool_decide_eq_false_2 by done. simpl. by apply IH.
Qed.

Lemma rows_of_nil_severity (df : DataFrame) (h s : value) :
  s ∉ map Risk (List.filter (fun r => bool_decide (Host r = h)) df) ->
  rows_of df h s = [].
Proof.
  intros Hin. unfold rows_of. induction df as [|r df IH]; simpl; [done|].
  simpl in Hin. destruct (bool_decide (Host r = h)); simpl; [|by apply IH].
  simpl in Hin. apply not_elem_of_cons in Hin as [Hne Hin].
  rewrite bool_decide_eq_false_2 by done. by apply IH.
Qed.

Lemma dict_get_severities_of (df : DataFrame) (h s : value) :
  dict_get s (severities_of df h)
  = match findings_of df h s with [] => None | vulns => Some vulns end.
Proof.
  unfold severities_of. rewrite dict_get_map.
  destruct (decide (s ∈ _)) as [Hin|Hin].
  - apply (proj1 (elem_of_first_seen _ _)) in Hin.
    apply list_elem_of_In, in_map_iff in Hin as (r & Hs & Hr).
    apply filter_In in Hr as [Hr Hh]. apply bool_decide_eq_true in Hh.
    assert (Hrow : r ∈ rows_of df h s).
    { apply list_elem_of_In, filter_In. split; [done|].
      by rewrite !bool_decide_eq_true_2. }
    unfold findings_of. destruct (rows_of df h s); [|done].
    by apply elem_of_nil in Hrow.
  - unfold findings_of. rewrite rows_of_nil_severity; [done|].
    by rewrite <- elem_of_first_seen.
Qed.

Lemma grouped_at_group (df : DataFrame) (h s : value) :
  grouped_at (group df) h s = findings_of df h s.
Proof.
  unfold grouped_at. rewrite group_severities_of, dict_get_map.
  destruct (decide (h ∈ hosts_of df)) as [Hin|Hin]; simpl.
  - rewrite dict_get_severities_of. by destruct (findings_of df h s).
  - unfold findings_of. rewrite rows_of_nil_host; [done|].
    unfold hosts_of in Hin. by rewrite <- elem_of_first_seen.
Qed.

(** ** Severity counts *)

Lemma dict_get_dd_update {K V} `{EqDecision K} (dflt : V) (k k' : K)
    (f : V -> V) (d : list (K * V)) :
  dict_get k' (dd_update dflt k f d)
  = if decide (k = k') then Some (f (default dflt (dict_get k d)))
    else dict_get k' d.
Proof.
  induction d as [|[k0 v] d IH]; simpl.
  - destruct (decide (k = k')); done.
  - destruct (decide (k0 = k)) as [->|Hne]; simpl.
    + destruct (decide (k = k')); done.
    + rewrite IH. destruct (decide (k0 = k')) as [->|Hne'].
      * by rewrite decide_False by done.
      * done.
Qed.

Lemma value_counts_get (df : DataFrame) (counts : list (value * nat))
    (label : string) :
  default 0 (dict_get (Str label)
    (fold_left
       (fun counts v => if notna v then dd_update 0 v S counts else counts)
       (map Risk df) counts))
  = default 0 (dict_get (Str label) counts) + count_of df label.
Proof.
  revert counts. unfold count_of.
  induction df as [|r df IH]; intros counts; simpl; [lia|].
  rewrite IH. destruct (Risk r) as [|s]; simpl.
  - done.
  - rewrite dict_get_dd_update.
    destruct (decide (Str s = Str label)) as [Heq|Hne].
    + rewrite bool_decide_eq_true_2 by done. rewrite Heq. simpl. lia.
    + by rewrite bool_decide_eq_false_2.
Qed.

Lemma severity_counts_count_of (df : DataFrame) :
  severity_counts df = map (fun l => (l, count_of df l)) severity_order.
Proof.
  unfold severity_counts, reindex, value_counts.
  apply map_ext. intros l. by rewrite value_counts_get.
Qed.

Lemma total_severity_counts (df : DataFrame) :
  total (severity_counts df)
  = length (List.filter (fun r => in_order (Risk r)) df).
Proof.
  rewrite severity_counts_count_of. unfold total, count_of, in_order. simpl.
  induction df as [|r df IH]; simpl; [done|].
  destruct (decide (Risk r = Str "CRITICAL")) as [E|NC].
  { rewrite E. simpl. rewrite <- IH. lia. }
  destruct (decide (Risk r = Str "MEDIUM")) as [E|NM].
  { rewrite E. simpl. rewrite <- IH. lia. }
  destruct (decide (Risk r = Str "LOW")) as [E|NL].
  { rewrite E. simpl. rewrite <- IH. lia. }
  rewrite !bool_decide_eq_false_2; [exact IH|..]; try done.
  rewrite !elem_of_cons, elem_of_nil. tauto.
Qed.

(** ** The chart step and its transient file *)

Lemma add_severity_chart_run (env : Env) (df : DataFrame) (doc : Document)
    (chart_name title : string) (files : gset string) :
  add_severity_chart env df doc chart_name title files
  = if savefig_ok env chart_name then
      if add_picture_ok env chart_name then
        (Ok (doc ++ [Picture chart_name
                       {| chart_title := title; bars := severity_counts df;
                          colors := ["red"; "orange"; "yellow"] |}]),
         files ∖ {[chart_name]})
      else (Raise PictureError, {[chart_name]} ∪ files)
    else (Raise SaveFigError, files).
Proof.
  unfold add_severity_chart, mbind, M_bind, savefig, add_picture, os_remove.
  destruct (savefig_ok env chart_name); [|done].
  rewrite bool_decide_eq_true_2 by set_solver.
  destruct (add_picture_ok env chart_name); [|done].
  rewrite bool_decide_eq_true_2 by set_solver.
  unfold mret, M_ret. f_equal. set_solver.
Qed.

(** ** Rendering a finding and a group *)

Lemma bind_Ok {A B} (a : A) (f : A -> outcome B) : (Ok a ≫= f) = f a.
Proof. reflexivity. Qed.

Lemma bind_not_ok {A B} (o : outcome A) (f : A -> outcome B) :
  is_ok o = false -> is_ok (o ≫= f) = false.
Proof. by destruct o. Qed.

Lemma add_paragraph_new (fills : list string) (s : string) (size : nat)
    (color rgb : option string) :
  xml_compatible s = true -> font_color color = Ok rgb ->
  add_paragraph {| shading := fills; paragraphs := [[]] |} (Str s) true size color
  = Ok {| shading := fills; paragraphs := [[bold_run s size rgb]] |}.
Proof.
  intros Hs Hc. unfold add_paragraph. by rewrite (add_run_ok s Hs), bind_Ok, Hc.
Qed.

Lemma add_paragraph_fail (cell : Cell) (text : value) (bold : bool) (size : nat)
    (color : option string) :
  text_ok text = false -> is_ok (add_paragraph cell text bold size color) = false.
Proof.
  intros H. unfold add_paragraph. apply bind_not_ok. by apply add_run_fail.
Qed.

Lemma cell_add_paragraph_ok (cell : Cell) (s : string) :
  xml_compatible s = true ->
  cell_add_paragraph cell (Str s)
  = Ok {| shading := shading cell;
          paragraphs := paragraphs cell ++ [plain_paragraph s] |}.
Proof.
  intros Hs. unfold cell_add_paragraph. destruct s as [|c s]; [done|].
  by rewrite (add_run_ok _ Hs).
Qed.

Lemma cell_add_paragraph_fail (cell : Cell) (text : value) :
  text_ok text = false -> is_ok (cell_add_paragraph cell text) = false.
Proof.
  intros H. unfold cell_add_paragraph. apply bind_not_ok.
  destruct text as [|[|c s]].
  - done.
  - cbn [text_ok] in H. by rewrite xml_empty in H.
  - apply bind_not_ok. by apply add_run_fail.
Qed.

Lemma font_color_white : font_color (Some "FFFFFF") = Ok (Some "FFFFFF").
Proof. unfold font_color. by rewrite rgb_white. Qed.

Lemma xml_label (label s : string) :
  str_forall printable label = true ->
  xml_compatible (label +:+ s) = xml_compatible s.
Proof. intros H. by rewrite xml_app, (xml_printable_text label H). Qed.

Lemma render_table_ok (f : Finding) :
  renderable_finding f = true -> render_table f = Ok (table_of f).
Proof.
  destruct f as [[|t] [|d] [|s] [|r]]; unfold renderable_finding;
    cbn [risk title description solution text_ok andb];
    rewrite ?andb_false_r; try done.
  intros H. apply andb_true_iff in H as [H Hs].
  apply andb_true_iff in H as [H Hd]. apply andb_true_iff in H as [Hr Ht].
  unfold render_table, table_of, new_cell, set_cell_background.
  cbn [risk title description solution str_method format shading paragraphs app].
  rewrite bind_Ok.
  rewrite (add_paragraph_new _ t 16 _ _ Ht font_color_white), bind_Ok.
  rewrite (add_paragraph_new [] ("Risk: " +:+ r) 12 None None); [|by rewrite xml_label|done].
  rewrite bind_Ok.
  rewrite (add_paragraph_new [] "Description:" 12 None None);
    [|by apply xml_printable_text|done].
  rewrite bind_Ok, (cell_add_paragraph_ok _ d Hd), bind_Ok.
  rewrite (add_paragraph_new [] "Impact:" 12 None None);
    [|by apply xml_printable_text|done].
  rewrite bind_Ok, (cell_add_paragraph_ok _ "Impact information not available.");
    [|by apply xml_printable_text].
  rewrite bind_Ok.
  rewrite (add_paragraph_new ["9ACD32"] "Remediation:" 12 None None);
    [|by apply xml_printable_text|done].
  rewrite bind_Ok, (cell_add_paragraph_ok _ s Hs), bind_Ok.
  reflexivity.
Qed.

Lemma render_table_fail (f : Finding) :
  renderable_finding f = false -> is_ok (render_table f) = false.
Proof.
  destruct f as [t d s [|r]]; [done|]. unfold renderable_finding.
  cbn [risk title description solution]. intros H.
  unfold render_table, new_cell, set_cell_background.
  cbn [risk title description solution str_method format shading paragraphs app].
  rewrite bind_Ok.
  destruct (text_ok t) eqn:Ht; [|by apply bind_not_ok, add_paragraph_fail].
  destruct t as [|t]; [done|]. cbn [text_ok] in Ht.
  rewrite (add_paragraph_new _ t 16 _ _ Ht font_color_white), bind_Ok.
  destruct (text_ok (Str r)) eqn:Hr.
  2:{ apply bind_not_ok, add_paragraph_fail. cbn [text_ok] in *.
      by rewrite xml_label. }
  cbn [text_ok] in Hr.
  rewrite (add_paragraph_new [] ("Risk: " +:+ r) 12 None None);
    [|by rewrite xml_label|done].
  rewrite bind_Ok.
  rewrite (add_paragraph_new [] "Description:" 12 None None);
    [|by apply xml_printable_text|done].
  rewrite bind_Ok.
  destruct (text_ok d) eqn:Hd; [|by apply bind_not_ok, cell_add_paragraph_fail].
  destruct d as [|d]; [done|]. cbn [text_ok] in Hd.
  rewrite (cell_add_paragraph_ok _ d Hd), bind_Ok.
  rewrite (add_paragraph_new [] "Impact:" 12 None None);
    [|by apply xml_printable_text|done].
  rewrite bind_Ok, (cell_add_paragraph_ok _ "Impact information not available.");
    [|by apply xml_printable_text].
  rewrite bind_Ok.
  rewrite (add_paragraph_new ["9ACD32"] "Remediation:" 12 None None);
    [|by apply xml_printable_text|done].
  rewrite bind_Ok.
  destruct (text_ok s) eqn:Hs; [|by apply bind_not_ok, cell_add_paragraph_fail].
  cbn [text_ok andb] in H. rewrite ?Hr, ?Ht, ?Hd in H. done.
Qed.

Lemma xml_heading4 (host_count i j : nat) (t : string) :
  xml_compatible ("3." +:+ str_of_nat host_count +:+ "." +:+ str_of_nat i +:+ "."
                  +:+ str_of_nat j +:+ " " +:+ t)
  = xml_compatible t.
Proof.
  rewrite !xml_app, !xml_str_of_nat.
  by rewrite !(xml_printable_text) by done.
Qed.

Lemma xml_heading3 (host_count i : nat) (t : string) :
  xml_compatible ("3." +:+ str_of_nat host_count +:+ "." +:+ str_of_nat i +:+ " "
                  +:+ t +:+ " Vulnerabilities")
  = xml_compatible t.
Proof.
  rewrite !xml_app, !xml_str_of_nat.
  rewrite (xml_printable_text "3."), (xml_printable_text "."),
    (xml_printable_text " "), (xml_printable_text " Vulnerabilities") by done.
  by rewrite andb_true_r.
Qed.

Lemma xml_heading2 (host_count : nat) (t : string) :
  xml_compatible ("3." +:+ str_of_nat host_count +:+ " " +:+ t)
  = xml_compatible t.
Proof.
  rewrite !xml_app, !xml_str_of_nat.
  by rewrite (xml_printable_text "3."), (xml_printable_text " ") by done.
Qed.

Lemma renderable_finding_title (f : Finding) :
  renderable_finding f = true -> xml_compatible (format (title f)) = true.
Proof.
  unfold renderable_finding. intros H.
  apply andb_true_iff in H as [H _]. apply andb_true_iff in H as [H _].
  apply andb_true_iff in H as [_ H]. by destruct (title f).
Qed.

Lemma render_vulns_ok (host_count i : nat) (vulns : list Finding) (j : nat)
    (doc : Document) :
  forallb renderable_finding vulns = true ->
  render_vulns host_count i vulns j doc
  = Ok (doc ++ concat (imap (fun k f => finding_block host_count i (j + k) f)
                         vulns)).
Proof.
  revert j doc. induction vulns as [|f vulns IH]; intros j doc Hok.
  - simpl. by rewrite app_nil_r.
  - cbn [forallb] in Hok. apply andb_true_iff in Hok as [Hf Hok].
    cbn [render_vulns].
    rewrite doc_add_paragraph_ok
      by (rewrite xml_heading4; by apply renderable_finding_title).
    rewrite bind_Ok, (render_table_ok f Hf), bind_Ok, (IH _ _ Hok).
    unfold add_page_break. rewrite <- !app_assoc. cbn [app].
    rewrite imap_cons. cbn [concat]. unfold finding_block at 2.
    rewrite Nat.add_0_r. cbn [app]. do 6 f_equal.
    apply imap_ext. intros k x _. simpl. f_equal. lia.
Qed.

Lemma render_vulns_fail (host_count i : nat) (vulns : list Finding) (j : nat)
    (doc : Document) :
  forallb renderable_finding vulns = false ->
  is_ok (render_vulns host_count i vulns j doc) = false.
Proof.
  revert j doc. induction vulns as [|f vulns IH]; intros j doc Hok; [done|].
  cbn [forallb] in Hok. cbn [render_vulns].
  destruct (doc_add_paragraph _ _ _) as [doc'|e]; [|done]. rewrite bind_Ok.
  destruct (renderable_finding f) eqn:Hf; cbn [andb] in Hok.
  - rewrite (render_table_ok f Hf), bind_Ok. by apply IH.
  - by apply bind_not_ok, render_table_fail.
Qed.

Lemma severity_order_printable :
  forallb (fun s => str_forall printable s) severity_order = true.
Proof. reflexivity. Qed.

Lemma capitalize_printable (s : string) :
  str_forall printable s = true -> str_forall printable (capitalize s) = true.
Proof.
  assert (Hu : forall c, printable c = true -> printable (ascii_upper c) = true).
  { intros c. destruct c as [[] [] [] [] [] [] [] []]; done. }
  assert (Hl : forall c, printable c = true -> printable (ascii_lower c) = true).
  { intros c. destruct c as [[] [] [] [] [] [] [] []]; done. }
  destruct s as [|c s]; [done|]. cbn [capitalize str_forall].
  intros H. apply andb_true_iff in H as [Hc Hs]. rewrite (Hu c Hc). cbn [andb].
  induction s as [|c' s IH]; [done|]. cbn [str_map str_forall] in *.
  apply andb_true_iff in Hs as [Hc' Hs]. by rewrite (Hl c' Hc'), (IH Hs).
Qed.

Lemma render_severities_ok (df : DataFrame) (host_count : nat) (host : value)
    (order : list string) (i : nat) (doc : Document) :
  forallb (fun s => str_forall printable s) order = true ->
  forallb (group_ok df host) order = true ->
  render_severities host_count (severities_of df host) order i doc
  = Ok (doc ++ concat (imap (fun k severity =>
                               severity_section df host_count host (i + k) severity)
                         order)).
Proof.
  revert i doc. induction order as [|severity order IH]; intros i doc Hpr Hok.
  - simpl. by rewrite app_nil_r.
  - cbn [forallb] in Hok, Hpr. apply andb_true_iff in Hok as [Hg Hok].
    apply andb_true_iff in Hpr as [Hsev Hpr].
    cbn [render_severities]. rewrite dict_get_severities_of.
    rewrite imap_cons. cbn [concat]. unfold severity_section at 1.
    rewrite Nat.add_0_r. unfold group_ok in Hg.
    assert (Hext : imap ((fun k severity0 =>
                            severity_section df host_count host (i + k) severity0)
                         ∘ S) order
                   = imap (fun k severity0 =>
                             severity_section df host_count host (S i + k) severity0)
                       order).
    { apply imap_ext. intros k x _. simpl. f_equal. lia. }
    rewrite Hext. destruct (findings_of df host (Str severity)) as [|f vulns] eqn:E.
    + cbn [app]. by apply IH.
    + rewrite doc_add_paragraph_ok
        by (rewrite xml_heading3;
            by apply xml_printable_text, capitalize_printable).
      rewrite bind_Ok, (render_vulns_ok _ _ _ _ _ Hg), bind_Ok, (IH _ _ Hpr Hok).
      unfold severity_heading. rewrite <- !app_assoc. cbn [app]. done.
Qed.

Lemma render_severities_fail (df : DataFrame) (host_count : nat) (host : value)
    (order : list string) (i : nat) (doc : Document) :
  forallb (group_ok df host) order = false ->
  is_ok (render_severities host_count (severities_of df host) order i doc)
  = false.
Proof.
  revert i doc. induction order as [|severity order IH]; intros i doc Hok; [done|].
  cbn [forallb] in Hok. cbn [render_severities]. rewrite dict_get_severities_of.
  destruct (group_ok df host severity) eqn:Hg; cbn [andb] in Hok;
    unfold group_ok in Hg.
  - destruct (findings_of df host (Str severity)) as [|f vulns]; [by apply IH|].
    destruct (doc_add_paragraph _ _ _) as [doc'|e]; [|done]. rewrite bind_Ok.
    rewrite (render_vulns_ok _ _ _ _ _ Hg), bind_Ok. by apply IH.
  - destruct (findings_of df host (Str severity)) as [|f vulns]; [done|].
    destruct (doc_add_paragraph _ _ _) as [doc'|e]; [|done]. rewrite bind_Ok.
    by apply bind_not_ok, render_vulns_fail.
Qed.

(** ** Rendering the hosts *)

Lemma render_hosts_ok (env : Env) (df : DataFrame) (hosts : list value)
    (host_count : nat) (doc : Document) (files : gset string) :
  forallb (host_ok env df) hosts = true ->
  exists files',
    render_hosts env df (map (fun h => (h, severities_of df h)) hosts)
      host_count doc files
    = (Ok (doc ++ concat (imap (fun k h => host_section df (host_count + S k) h)
                            hosts)),
       files').
Proof.
  revert host_count doc files.
  induction hosts as [|h hosts IH]; intros host_count doc files Hok.
  - exists files. simpl. by rewrite app_nil_r.
  - cbn [forallb] in Hok. apply andb_true_iff in Hok as [Hh Hok].
    unfold host_ok in Hh.
    apply andb_true_iff in Hh as [Hh Hgroups].
    apply andb_true_iff in Hh as [Hstr Hchart].
    apply andb_true_iff in Hchart as [Hfig Hpic].
    destruct h as [|s]; [done|]. unfold chart_file_of in Hfig, Hpic.
    cbn [format text_ok] in Hfig, Hpic, Hstr.
    cbn [render_hosts map]. unfold mbind, M_bind, lift. cbn [str_method format].
    rewrite doc_add_paragraph_ok by by rewrite xml_heading2.
    rewrite add_severity_chart_run, Hfig, Hpic.
    rewrite (render_severities_ok df _ (Str s) severity_order 1 _
               severity_order_printable Hgroups).
    match goal with
    | |- context [render_hosts env df ?items ?hc ?doc0 ?fs] =>
        destruct (IH hc doc0 fs Hok) as [files' ->]
    end.
    exists files'. f_equal. f_equal.
    rewrite imap_cons. cbn [concat].
    assert (Hext : imap ((fun k h => host_section df (host_count + S k) h) ∘ S)
                     hosts
                   = imap (fun k h => host_section df (S host_count + S k) h)
                       hosts).
    { apply imap_ext. intros k x _. simpl. f_equal. lia. }
    rewrite Hext, Nat.add_1_r.
    unfold host_section at 2.
    unfold host_heading, host_chart, chart_file_of.
    cbn [format]. by rewrite <- !app_assoc.
Qed.

Lemma render_hosts_fail (env : Env) (df : DataFrame) (hosts : list value)
    (host_count : nat) (doc : Document) (files : gset string) :
  forallb (host_ok env df) hosts = false ->
  is_ok (render_hosts env df (map (fun h => (h, severities_of df h)) hosts)
           host_count doc files).1 = false.
Proof.
  revert host_count doc files.
  induction hosts as [|h hosts IH]; intros host_count doc files Hok; [done|].
  cbn [render_hosts map]. unfold mbind, M_bind, lift.
  destruct (doc_add_paragraph _ _ _) as [doc'|e] eqn:Hhead; [|done].
  destruct h as [|s]; [done|]. cbn [str_method format] in *.
  rewrite add_severity_chart_run.
  cbn [forallb] in Hok. unfold host_ok at 1 in Hok. unfold chart_file_of in Hok.
  cbn [text_ok format] in Hok.
  destruct (xml_compatible s) eqn:Hs.
  2:{ pose proof (doc_add_paragraph_fail doc
                    ("3." +:+ str_of_nat (S host_count) +:+ " " +:+ s)
                    "Heading 2") as Hf.
      rewrite xml_heading2, Hhead in Hf. by specialize (Hf Hs). }
  cbn [andb] in Hok.
  destruct (savefig_ok env _); [|done].
  destruct (add_picture_ok env _); [|done]. cbn [andb] in Hok.
  destruct (forallb (group_ok df (Str s)) severity_order) eqn:Hgroups.
  - rewrite (render_severities_ok df _ (Str s) severity_order 1 _
               severity_order_printable Hgroups).
    by apply IH.
  - match goal with
    | |- context [render_severities ?hc ?sevs ?order ?i ?d] =>
        pose proof (render_severities_fail df hc (Str s) order i d Hgroups) as Hf;
        destruct (render_severities hc sevs order i d)
    end; done.
Qed.

Lemma xml_severity (severity : string) :
  severity ∈ severity_order -> xml_compatible severity = true.
Proof.
  intros H. apply xml_printable_text. unfold severity_order in H.
  rewrite !elem_of_cons, elem_of_nil in H.
  destruct H as [->|[->|[->|[]]]]; reflexivity.
Qed.

Lemma in_order_Str (s : string) : in_order (Str s) = true <-> s ∈ severity_order.
Proof.
  unfold in_order, severity_order. rewrite bool_decide_eq_true. simpl.
  rewrite !elem_of_cons, !elem_of_nil. split.
  - intros [H|[H|[H|[]]]]; injection H as ->; auto.
  - intros [->|[->|[->|[]]]]; auto.
Qed.

Lemma elem_of_rows_of (df : DataFrame) (h s : value) (r : Row) :
  r ∈ rows_of df h s <-> r ∈ df /\ Host r = h /\ Risk r = s.
Proof.
  unfold rows_of.
  rewrite !list_elem_of_In, filter_In, andb_true_iff, !bool_decide_eq_true.
  tauto.
Qed.

Lemma hosts_ok_iff (env : Env) (df : DataFrame) :
  forallb (host_ok env df) (hosts_of df) = true
  <-> renderable df = true
      /\ charts_ok env (map chart_file_of (hosts_of df)) = true.
Proof.
  unfold renderable, charts_ok. rewrite !forallb_forall. split.
  - intros Hall. split.
    + intros r Hr. unfold renderable_row.
      assert (Hh : host_ok env df (Host r) = true).
      { apply Hall, list_elem_of_In, elem_of_first_seen, list_elem_of_In.
        by apply in_map. }
      unfold host_ok in Hh. apply andb_true_iff in Hh as [Hh Hgroups].
      apply andb_true_iff in Hh as [Hstr _]. rewrite Hstr. simpl.
      destruct (in_order (Risk r)) eqn:Hord; [|done]. simpl.
      destruct (Risk r) as [|sev] eqn:Hsev; [done|].
      apply in_order_Str in Hord.
      rewrite forallb_forall in Hgroups.
      specialize (Hgroups sev (proj1 (list_elem_of_In _ _) Hord)).
      unfold group_ok in Hgroups. rewrite forallb_forall in Hgroups.
      specialize (Hgroups (finding_of_row r)).
      unfold renderable_finding in Hgroups. simpl in Hgroups.
      rewrite <- !andb_assoc in Hgroups.
      assert (Hin : In (finding_of_row r) (findings_of df (Host r) (Str sev))).
      { apply in_map, list_elem_of_In, elem_of_rows_of.
        by apply list_elem_of_In in Hr. }
      apply Hgroups, andb_true_iff in Hin as [_ Hin].
      by rewrite <- !andb_assoc.
    + intros f Hf. apply in_map_iff in Hf as (h & <- & Hh).
      specialize (Hall h Hh). unfold host_ok in Hall.
      apply andb_true_iff in Hall as [Hall _].
      by apply andb_true_iff in Hall as [_ Hall].
  - intros [Hrows Hcharts] h Hh.
    assert (Hh' := Hh). unfold hosts_of in Hh'.
    apply list_elem_of_In, (proj1 (elem_of_first_seen _ _)), list_elem_of_In in Hh'.
    apply in_map_iff in Hh' as (r & <- & Hr).
    unfold host_ok. rewrite !andb_true_iff. split; [split|].
    + specialize (Hrows r Hr). unfold renderable_row in Hrows.
      by apply andb_true_iff in Hrows as [? _].
    + apply andb_true_iff, Hcharts. by apply in_map.
    + apply forallb_forall. intros sev Hsev. unfold group_ok.
      apply forallb_forall. intros f Hf.
      apply in_map_iff in Hf as (r' & <- & Hr').
      apply list_elem_of_In, elem_of_rows_of in Hr' as (Hr' & Hhost & Hsevr).
      apply list_elem_of_In in Hr'. specialize (Hrows r' Hr').
      unfold renderable_row in Hrows. rewrite Hsevr in Hrows.
      rewrite (proj2 (in_order_Str sev)) in Hrows
        by by apply list_elem_of_In.
      simpl in Hrows. apply andb_true_iff in Hrows as [_ Hrows].
      unfold renderable_finding.
      cbn [finding_of_row risk title description solution]. rewrite Hsevr.
      cbn [text_ok]. rewrite (xml_severity sev) by by apply list_elem_of_In.
      exact Hrows.
Qed.

(** ** The whole report *)

Lemma generate_report_steps (env : Env) (template : Document)
    (output_path : string) (df : DataFrame) (files : gset string) :
  generate_report env template output_path df files
  = match normalize df with
    | Raise e => (Raise e, files)
    | Ok kept =>
        match add_severity_chart env kept
                (template ++ [PageBreak; Paragraph "1. Statistics" "Heading 1"])
                "severity_chart.png" "Vulnerabilities by Severity" files with
        | (Raise e, files1) => (Raise e, files1)
        | (Ok doc, files1) =>
            match render_hosts env kept (group kept) 0
                    (doc ++ [ Paragraph nl "Normal"; PageBreak;
                              Paragraph "2. Executive Summary" "Heading 1";
                              Paragraph ("Add executive summary here..." +:+ nl)
                                "Normal";
                              PageBreak;
                              Paragraph "3. Vulnerabilities and Remediations"
                                "Heading 1" ])
                    files1 with
            | (Raise e, files2) => (Raise e, files2)
            | (Ok doc', files2) =>
                if save_ok env output_path
                then (Ok doc', {[output_path]} ∪ files2)
                else (Raise SaveError, files2)
            end
        end
    end.
Proof.
  unfold generate_report, mbind, M_bind, lift, add_page_break.
  destruct (normalize df) as [kept|e]; [|done].
  rewrite doc_add_paragraph_ok by by apply xml_printable_text.
  rewrite <- app_assoc. cbn [app].
  destruct (add_severity_chart _ _ _ _ _ _) as [[doc|e] files1]; [|done].
  rewrite !doc_add_paragraph_ok by by apply xml_printable_text.
  rewrite <- !app_assoc. cbn [app].
  destruct (render_hosts _ _ _ _ _ _) as [[doc'|e] files2]; [|done].
  unfold save, mret, M_ret. by destruct (save_ok env output_path).
Qed.

Lemma generate_report_ok (env : Env) (template : Document) (output_path : string)
    (df : DataFrame) (files : gset string) :
  infer_dtype (map Risk df) = object ->
  renderable (kept_rows df) = true ->
  env_ok env output_path (kept_rows df) = true ->
  exists files',
    generate_report env template output_path df files
    = (Ok (template ++ report_layout (kept_rows df)), files').
Proof.
  intros Hdt Hrows Henv. unfold env_ok in Henv.
  apply andb_true_iff in Henv as [Hcharts Hsave].
  cbn [charts_ok forallb] in Hcharts.
  apply andb_true_iff in Hcharts as [Hglobal Hcharts].
  apply andb_true_iff in Hglobal as [Hfig Hpic].
  assert (Hhosts : forallb (host_ok env (kept_rows df)) (hosts_of (kept_rows df))
                   = true) by by apply hosts_ok_iff.
  rewrite generate_report_steps, (normalize_object df Hdt).
  rewrite add_severity_chart_run, Hfig, Hpic.
  rewrite group_severities_of.
  edestruct (render_hosts_ok env (kept_rows df) (hosts_of (kept_rows df)) 0)
    as [files' ->]; [exact Hhosts|].
  rewrite Hsave. eexists. f_equal. f_equal.
  unfold report_layout, statistics_section, executive_summary_section.
  rewrite <- !app_assoc. reflexivity.
Qed.

Lemma generate_report_Ok (env : Env) (template : Document) (output_path : string)
    (df : DataFrame) (files files' : gset string) (doc : Document) :
  generate_report env template output_path df files = (Ok doc, files') ->
  infer_dtype (map Risk df) = object
  /\ renderable (kept_rows df) = true
  /\ env_ok env output_path (kept_rows df) = true
  /\ doc = template ++ report_layout (kept_rows df).
Proof.
  intros Hrun.
  assert (Hdt : infer_dtype (map Risk df) = object).
  { destruct (infer_dtype (map Risk df)) eqn:Hdt; [done|].
    unfold generate_report, normalize, filter_rows in Hrun.
    rewrite Hdt in Hrun. discriminate. }
  assert (Hcond : forallb (host_ok env (kept_rows df)) (hosts_of (kept_rows df))
                  = true
                  /\ savefig_ok env "severity_chart.png" = true
                  /\ add_picture_ok env "severity_chart.png" = true
                  /\ save_ok env output_path = true).
  { rewrite generate_report_steps, (normalize_object df Hdt) in Hrun.
    rewrite add_severity_chart_run in Hrun.
    destruct (savefig_ok env "severity_chart.png"); [|done].
    destruct (add_picture_ok env "severity_chart.png"); [|done].
    rewrite group_severities_of in Hrun.
    destruct (forallb (host_ok env (kept_rows df)) (hosts_of (kept_rows df)))
      eqn:Hhosts.
    - destruct (save_ok env output_path) eqn:Hsave; [done|].
      match type of Hrun with
      | context [render_hosts ?e ?d ?items ?hc ?doc0 ?fs] =>
          destruct (render_hosts e d items hc doc0 fs) as [[?|?] ?]
      end; done.
    - match type of Hrun with
      | context [render_hosts ?e ?d (map ?f ?hs) ?hc ?doc0 ?fs] =>
          pose proof (render_hosts_fail e d hs hc doc0 fs Hhosts) as Hf;
          destruct (render_hosts e d (map f hs) hc doc0 fs) as [[?|?] ?]
      end; done. }
  destruct Hcond as (Hhosts & Hfig & Hpic & Hsave).
  apply hosts_ok_iff in Hhosts as [Hrows Hcharts].
  assert (Henv : env_ok env output_path (kept_rows df) = true).
  { unfold env_ok, charts_ok. cbn [forallb]. unfold charts_ok in Hcharts.
    by rewrite Hfig, Hpic, Hsave, Hcharts. }
  repeat split; try done.
  destruct (generate_report_ok env template output_path df files Hdt Hrows Henv)
    as [files'' Hrun'].
  congruence.
Qed.

(** ** What the layout holds *)

Lemma omap_concat_imap {A B C} (F : B -> option C) (g : nat -> A -> list B)
    (l : list A) :
  omap F (concat (imap g l)) = concat (imap (fun j x => omap F (g j x)) l).
Proof.
  revert g. induction l as [|x l IH]; intros g; simpl; [done|].
  by rewrite omap_app, IH.
Qed.

Lemma concat_imap_map {A B} (h : A -> list B) (l : list A) :
  concat (imap (fun _ x => h x) l) = concat (map h l).
Proof.
  induction l as [|x l IH]; [done|].
  rewrite imap_cons. cbn [concat map]. f_equal. exact IH.
Qed.

Lemma concat_imap_nil {A B} (l : list A) :
  concat (imap (fun _ _ => @nil B) l) = [].
Proof.
  rewrite (concat_imap_map (fun _ => @nil B)).
  induction l as [|x l IH]; simpl; done.
Qed.

Lemma concat_imap_singleton {A B} (h : A -> B) (l : list A) :
  concat (imap (fun _ x => [h x]) l) = map h l.
Proof.
  rewrite (concat_imap_map (fun x => [h x])).
  induction l as [|x l IH]; simpl; [done|]. by rewrite IH.
Qed.

Lemma outline_app (d1 d2 : Document) : outline (d1 ++ d2) = outline d1 ++ outline d2.
Proof. apply omap_app. Qed.

Lemma tables_app (d1 d2 : Document) : tables (d1 ++ d2) = tables d1 ++ tables d2.
Proof. apply omap_app. Qed.

Lemma charts_app (d1 d2 : Document) : charts (d1 ++ d2) = charts d1 ++ charts d2.
Proof. apply omap_app. Qed.

Lemma outline_finding_blocks (host_count i : nat) (vulns : list Finding) :
  outline (concat (imap (fun j f => finding_block host_count i (S j) f) vulns))
  = [].
Proof.
  unfold outline. rewrite omap_concat_imap.
  erewrite imap_ext; [apply concat_imap_nil|]. intros j f _. reflexivity.
Qed.

Lemma charts_finding_blocks (host_count i : nat) (vulns : list Finding) :
  charts (concat (imap (fun j f => finding_block host_count i (S j) f) vulns))
  = [].
Proof.
  unfold charts. rewrite omap_concat_imap.
  erewrite imap_ext; [apply concat_imap_nil|]. intros j f _. reflexivity.
Qed.

Lemma tables_finding_blocks (host_count i : nat) (vulns : list Finding) :
  tables (concat (imap (fun j f => finding_block host_count i (S j) f) vulns))
  = map table_of vulns.
Proof.
  unfold tables. rewrite omap_concat_imap.
  erewrite imap_ext; [apply concat_imap_singleton|]. intros j f _. reflexivity.
Qed.

Lemma outline_severity_section (df : DataFrame) (host_count : nat) (host : value)
    (i : nat) (severity : string) :
  outline (severity_section df host_count host i severity)
  = severity_line df host_count host i severity.
Proof.
  unfold severity_section, severity_line, findings_of.
  destruct (rows_of df host (Str severity)) as [|r rows]; [done|].
  cbn [map].
  change (severity_heading host_count i severity :: ?l)
    with ([severity_heading host_count i severity] ++ l).
  by rewrite outline_app, outline_finding_blocks.
Qed.

Lemma tables_severity_section (df : DataFrame) (host_count : nat) (host : value)
    (i : nat) (severity : string) :
  tables (severity_section df host_count host i severity)
  = map table_of (findings_of df host (Str severity)).
Proof.
  unfold severity_section.
  destruct (findings_of df host (Str severity)) as [|f vulns]; [done|].
  change (severity_heading host_count i severity :: ?l)
    with ([severity_heading host_count i severity] ++ l).
  by rewrite tables_app, tables_finding_blocks.
Qed.

Lemma charts_severity_section (df : DataFrame) (host_count : nat) (host : value)
    (i : nat) (severity : string) :
  charts (severity_section df host_count host i severity) = [].
Proof.
  unfold severity_section.
  destruct (findings_of df host (Str severity)) as [|f vulns]; [done|].
  change (severity_heading host_count i severity :: ?l)
    with ([severity_heading host_count i severity] ++ l).
  by rewrite charts_app, charts_finding_blocks.
Qed.

Lemma outline_host_section (df : DataFrame) (host_count : nat) (host : value) :
  outline (host_section df host_count host) = host_outline df host_count host.
Proof.
  unfold host_section, host_outline, severity_order. cbn [imap concat].
  unfold compose. cbn beta.
  rewrite !outline_app, !outline_severity_section. reflexivity.
Qed.

Lemma tables_host_section (df : DataFrame) (host_count : nat) (host : value) :
  tables (host_section df host_count host) = host_tables df host.
Proof.
  unfold host_section, host_tables, severity_order. cbn [imap concat map].
  unfold compose. cbn beta.
  rewrite !tables_app, !tables_severity_section. reflexivity.
Qed.

Lemma charts_host_section (df : DataFrame) (host_count : nat) (host : value) :
  charts (host_section df host_count host)
  = [chart_of (format host +:+ " - Vulnerabilities by Severity")
       (host_rows df (format host))].
Proof.
  unfold host_section, severity_order. cbn [imap concat].
  unfold compose. cbn beta.
  rewrite !charts_app, !charts_severity_section. reflexivity.
Qed.

Lemma outline_report_layout (df : DataFrame) :
  outline (report_layout df) = report_outline df.
Proof.
  unfold report_layout, report_outline. rewrite !outline_app.
  unfold outline at 5. rewrite omap_concat_imap.
  erewrite imap_ext; [reflexivity|]. intros k h _. apply outline_host_section.
Qed.

Lemma tables_report_layout (df : DataFrame) :
  tables (report_layout df) = report_tables df.
Proof.
  unfold report_layout, report_tables. rewrite !tables_app.
  unfold tables at 5. rewrite omap_concat_imap.
  erewrite imap_ext; [|intros k h _; apply tables_host_section].
  by rewrite concat_imap_map.
Qed.

Lemma charts_report_layout (df : DataFrame) :
  charts (report_layout df) = report_charts df.
Proof.
  unfold report_layout, report_charts. rewrite !charts_app.
  unfold charts at 5. rewrite omap_concat_imap.
  erewrite imap_ext; [|intros k h _; apply charts_host_section].
  by rewrite concat_imap_singleton.
Qed.

Lemma host_rows_Str (df : DataFrame) (s : string) :
  host_rows df s = List.filter (fun r => bool_decide (Host r = Str s)) df.
Proof.
  unfold host_rows. apply filter_ext. intros r. unfold eq_text.
  destruct (Host r) as [|s']; [done|].
  destruct (decide (s' = s)) as [->|Hne].
  - by rewrite !bool_decide_eq_true_2.
  - rewrite !bool_decide_eq_false_2; [done| |done]. congruence.
Qed.

Lemma table_of_expected (r : Row) (severity : string) :
  severity ∈ severity_order -> Risk r = Str severity ->
  table_of (finding_of_row r)
  = expected_table severity (Name r) (Description r) (Solution r).
Proof.
  intros Hsev Hr. unfold table_of, expected_table, finding_of_row.
  cbn [risk title description solution]. rewrite Hr. cbn [format].
  by rewrite (get_severity_color_order _ Hsev).
Qed.

Lemma severity_section_expected (df : DataFrame) (host_count : nat)
    (host : value) (i : nat) (severity : string) :
  severity ∈ severity_order ->
  severity_section df host_count host i severity
  = expected_severity_section df host_count host i severity.
Proof.
  intros Hsev. unfold severity_section, expected_severity_section, findings_of.
  assert (Hrows : forall r, r ∈ rows_of df host (Str severity) ->
                    Risk r = Str severity).
  { intros r Hr. by apply elem_of_rows_of in Hr as (_ & _ & Hr). }
  destruct (rows_of df host (Str severity)) as [|r rows]; [done|].
  cbn [map]. unfold severity_heading. f_equal. f_equal.
  change (finding_of_row r :: map finding_of_row rows)
    with (finding_of_row <$> (r :: rows)).
  rewrite imap_fmap. apply imap_ext. intros j r0 Hj. cbn [compose].
  unfold finding_block, expected_finding_block.
  rewrite (table_of_expected r0 severity Hsev); [done|].
  apply Hrows. by apply list_elem_of_lookup_2 in Hj.
Qed.

Lemma expected_chart_counts (title : string) (scope : DataFrame) :
  {| chart_title := title; bars := severity_counts scope;
     colors := ["red"; "orange"; "yellow"] |}
  = expected_chart title scope.
Proof. unfold expected_chart. by rewrite severity_counts_count_of. Qed.

Lemma host_section_expected (df : DataFrame) (host_count : nat) (h : string) :
  host_section df host_count (Str h) = expected_host_section df host_count (Str h).
Proof.
  unfold host_section, expected_host_section, host_heading, host_chart.
  cbn [format]. rewrite host_rows_Str, expected_chart_counts.
  unfold severity_order. cbn [imap concat compose].
  rewrite !severity_section_expected by (unfold severity_order; set_solver).
  done.
Qed.

Lemma report_layout_expected (df : DataFrame) :
  (forall r, r ∈ df -> exists h, Host r = Str h) ->
  report_layout df = expected_layout df.
Proof.
  intros Hhosts. unfold report_layout, expected_layout, statistics_section,
    executive_summary_section, hosts_of.
  rewrite expected_chart_counts. cbn [app]. do 10 f_equal.
  apply imap_ext. intros k host Hk.
  apply list_elem_of_lookup_2, elem_of_first_seen, list_elem_of_In, in_map_iff
    in Hk as (r & <- & Hr).
  destruct (Hhosts r (proj2 (list_elem_of_In _ _) Hr)) as [h ->].
  apply host_section_expected.
Qed.

Lemma renderable_hosts (df : DataFrame) (r : Row) :
  renderable df = true -> r ∈ df -> exists h, Host r = Str h.
Proof.
  unfold renderable. rewrite forallb_forall. intros Hall Hr.
  specialize (Hall r (proj1 (list_elem_of_In _ _) Hr)).
  unfold renderable_row in Hall. destruct (Host r) as [|h]; [done|]. by exists h.
Qed.

Lemma generate_report_expected (env : Env) (template : Document)
    (output_path : string) (df : DataFrame) (files files' : gset string)
    (doc : Document) :
  generate_report env template output_path df files = (Ok doc, files') ->
  doc = template ++ expected_layout (kept_rows df).
Proof.
  intros Hrun. apply generate_report_Ok in Hrun as (_ & Hrows & _ & ->).
  f_equal. apply report_layout_expected. intros r Hr.
  by apply (renderable_hosts (kept_rows df)).
Qed.

(** ** The claims about loading, normalization and grouping *)

Lemma filter_map_comm {A B} (p : B -> bool) (f : A -> B) (l : list A) :
  List.filter p (map f l) = map f (List.filter (fun x => p (f x)) l).
Proof.
  induction l as [|x l IH]; simpl; [done|].
  destruct (p (f x)); simpl; by rewrite IH.
Qed.

Lemma infer_dtype_object (df : DataFrame) (r : Row) :
  r ∈ df -> notna (Risk r) = true -> infer_dtype (map Risk df) = object.
Proof.
  intros Hin Hr. unfold infer_dtype.
  destruct (map Risk df) as [|v col] eqn:E; [done|]. rewrite <- E.
  assert (Hex : existsb notna (map Risk df) = true).
  { apply existsb_exists. exists (Risk r). split; [|done].
    apply in_map. by apply list_elem_of_In. }
  by rewrite Hex.
Qed.

Lemma rows_of_kept_rows (df : DataFrame) (h s : value) :
  rows_of (kept_rows df) h s
  = map normalize_row
      (List.filter
         (fun r => negb (excluded r)
                   && (bool_decide (Host r = h)
                       && bool_decide (normalize_risk (Risk r) = s))) df).
Proof.
  unfold rows_of, kept_rows. by rewrite filter_map_comm, filter_filter_and.
Qed.

Lemma count_of_kept_rows (df : DataFrame) (label : string) :
  count_of (kept_rows df) label
  = length (List.filter
              (fun r => negb (excluded r)
                        && bool_decide (normalize_risk (Risk r) = Str label)) df).
Proof.
  unfold count_of, kept_rows.
  by rewrite filter_map_comm, filter_filter_and, length_map.
Qed.

(** C1. A row whose severity is missing or reads [none] in any letter
    case is dropped and every other row is kept: the table the report is
    built from consists of the rows that are not excluded, in order;
    each group of findings holds exactly the kept rows of its host and
    normalized severity, and each bar of the global chart and of a
    host's chart counts exactly the kept rows of its severity in that
    scope. *)
Theorem C1_excluded_rows (df : DataFrame) :
  infer_dtype (map Risk df) = object ->
  normalize df = Ok (kept_rows df)
  /\ (forall r, r ∈ df ->
        (excluded r = true
         <-> Risk r = NaN \/ exists s, Risk r = Str s /\ lower s = "none"))
  /\ (forall h s,
        grouped_at (group (kept_rows df)) h s
        = map (fun r => finding_of_row (normalize_row r))
            (List.filter
               (fun r => negb (excluded r)
                         && (bool_decide (Host r = h)
                             && bool_decide (normalize_risk (Risk r) = s))) df))
  /\ severity_counts (kept_rows df)
     = map (fun label =>
              (label,
               length (List.filter
                         (fun r => negb (excluded r)
                                   && bool_decide
                                        (normalize_risk (Risk r) = Str label))
                         df)))
         severity_order
  /\ (forall host,
        severity_counts (host_rows (kept_rows df) host)
        = map (fun label =>
                 (label,
                  length (List.filter
                            (fun r => negb (excluded r)
                                      && (eq_text (Host r) host
                                          && bool_decide
                                               (normalize_risk (Risk r)
                                                = Str label)))
                            df)))
            severity_order).
Proof.
  intros Hdt. split; [by apply normalize_object|]. split; [|split; [|split]].
  - intros r _. unfold excluded. destruct (Risk r) as [|s].
    + split; [by left|done].
    + rewrite bool_decide_eq_true. split.
      * intros Hs. right. by exists s.
      * intros [?|(s' & Hs' & Hl)]; [done|]. by injection Hs' as ->.
  - intros h s. rewrite grouped_at_group. unfold findings_of.
    by rewrite rows_of_kept_rows, map_map.
  - rewrite severity_counts_count_of. apply map_ext. intros label.
    by rewrite count_of_kept_rows.
  - intros host. rewrite severity_counts_count_of. apply map_ext. intros label.
    unfold count_of, host_rows, kept_rows.
    by rewrite !filter_map_comm, !filter_filter_and, length_map.
Qed.

Lemma elem_of_kept_rows (df : DataFrame) (r : Row) :
  r ∈ df -> excluded r = false -> normalize_row r ∈ kept_rows df.
Proof.
  intros Hin Hex. unfold kept_rows. apply list_elem_of_In, in_map, filter_In.
  split; [by apply list_elem_of_In|]. by rewrite Hex.
Qed.

Lemma elem_of_concat_imap {A B} (f : nat -> A -> list B) (l : list A)
    (k : nat) (x : A) (y : B) :
  l !! k = Some x -> y ∈ f k x -> y ∈ concat (imap f l).
Proof.
  revert f k. induction l as [|a l IH]; intros f k Hk Hy; [done|].
  cbn [imap concat]. apply elem_of_app. destruct k as [|k].
  - injection Hk as ->. by left.
  - right. apply (IH (f ∘ S) k); done.
Qed.

Lemma report_tables_elem (df : DataFrame) (r : Row) (severity : string) :
  r ∈ df -> Risk r = Str severity -> severity ∈ severity_order ->
  table_of (finding_of_row r) ∈ report_tables df.
Proof.
  intros Hin Hrisk Hsev. unfold report_tables, host_tables.
  apply list_elem_of_In, in_concat. eexists. split.
  - apply in_map_iff. exists (Host r). split; [reflexivity|].
    apply list_elem_of_In, elem_of_first_seen, list_elem_of_In, in_map_iff.
    exists r. split; [done|]. by apply list_elem_of_In.
  - apply in_concat. eexists. split.
    + apply in_map_iff. exists severity. split; [reflexivity|].
      by apply list_elem_of_In.
    + apply in_map, in_map, list_elem_of_In, elem_of_rows_of. done.
Qed.

Lemma severity_counts_bar (df : DataFrame) (r : Row) (severity : string) :
  r ∈ df -> Risk r = Str severity -> severity ∈ severity_order ->
  exists n, (severity, n) ∈ severity_counts df /\ 0 < n.
Proof.
  intros Hin Hrisk Hsev. exists (count_of df severity). split.
  - rewrite severity_counts_count_of. apply list_elem_of_In, in_map_iff.
    exists severity. split; [done|]. by apply list_elem_of_In.
  - unfold count_of.
    assert (Hc : r ∈ List.filter (fun r0 => bool_decide (Risk r0 = Str severity))
                       df).
    { apply list_elem_of_In, filter_In. split; [by apply list_elem_of_In|].
      by apply bool_decide_eq_true. }
    destruct (List.filter _ df); [by apply elem_of_nil in Hc|]. simpl. lia.
Qed.

(** C2. A row whose severity uppercases to [HIGH] is kept by the
    normalizer with the severity [CRITICAL], exactly.  That is the
    severity stored on its finding and the key the grouping loop files
    it under; the bar CRITICAL of the counts of the table, and of the
    rows of its host, counts it; the table built for its finding has
    the red title cell and the label [Risk: CRITICAL]; and a produced
    report holds that table, under a sub-heading [Critical
    Vulnerabilities] of its host. *)
Theorem C2_high_is_critical (df : DataFrame) (r : Row) (s : string) :
  r ∈ df -> Risk r = Str s -> upper s = "HIGH" ->
  let f := {| title := Name r; description := Description r;
              solution := Solution r; risk := Str "CRITICAL" |} in
  let table := expected_table "CRITICAL" (Name r) (Description r) (Solution r) in
  (exists kept,
     normalize df = Ok kept
     /\ set_Risk r (Str "CRITICAL") ∈ kept
     /\ f ∈ grouped_at (group kept) (Host r) (Str "CRITICAL")
     /\ (exists n, ("CRITICAL", n) ∈ severity_counts kept /\ 0 < n)
     /\ (forall host, Host r = Str host ->
           exists n, ("CRITICAL", n) ∈ severity_counts (host_rows kept host)
                     /\ 0 < n))
  /\ (forall cells, render_table f = Ok cells -> cells = table)
  /\ (forall env template output_path files doc files',
        generate_report env template output_path df files = (Ok doc, files') ->
        table ∈ tables doc
        /\ exists k,
             first_seen (map Host (kept_rows df)) !! k = Some (Host r)
             /\ ("3." +:+ str_of_nat (S k) +:+ ".1 Critical Vulnerabilities")
                ∈ outline doc).
Proof.
  intros Hin Hs Hup f table.
  assert (Hex : excluded r = false).
  { unfold excluded. rewrite Hs. apply bool_decide_eq_false.
    by apply upper_HIGH_not_none. }
  assert (Hrisk : normalize_risk (Risk r) = Str "CRITICAL").
  { rewrite Hs. unfold normalize_risk, replace_value. simpl. by rewrite Hup. }
  assert (Hrow : normalize_row r = set_Risk r (Str "CRITICAL")).
  { unfold normalize_row. by rewrite Hrisk. }
  assert (Hkept : set_Risk r (Str "CRITICAL") ∈ kept_rows df).
  { rewrite <- Hrow. by apply elem_of_kept_rows. }
  assert (Hord : "CRITICAL" ∈ severity_order) by (unfold severity_order; set_solver).
  assert (Htable : table_of f = table).
  { apply (table_of_expected (set_Risk r (Str "CRITICAL")) "CRITICAL" Hord).
    reflexivity. }
  split; [|split].
  - exists (kept_rows df). split.
    { apply normalize_object. apply (infer_dtype_object df r Hin). by rewrite Hs. }
    split; [done|]. split.
    { rewrite grouped_at_group. unfold findings_of.
      apply list_elem_of_In, in_map_iff. exists (set_Risk r (Str "CRITICAL")).
      split; [done|]. apply list_elem_of_In, elem_of_rows_of. done. }
    split.
    { by apply (severity_counts_bar _ (set_Risk r (Str "CRITICAL"))). }
    intros host Hhost.
    apply (severity_counts_bar _ (set_Risk r (Str "CRITICAL"))); [|done|done].
    rewrite host_rows_Str. apply list_elem_of_In, filter_In.
    split; [by apply list_elem_of_In|]. by apply bool_decide_eq_true.
  - intros cells Hcells. destruct (renderable_finding f) eqn:Hf.
    + rewrite (render_table_ok f Hf) in Hcells. by injection Hcells as <-.
    + apply render_table_fail in Hf. by rewrite Hcells in Hf.
  - intros env template output_path files doc files' Hrun.
    apply generate_report_Ok in Hrun as (_ & _ & _ & ->). split.
    + rewrite tables_app, tables_report_layout, elem_of_app. right.
      rewrite <- Htable.
      by apply (report_tables_elem _ (set_Risk r (Str "CRITICAL")) "CRITICAL").
    + assert (Hhost : Host r ∈ first_seen (map Host (kept_rows df))).
      { apply elem_of_first_seen, list_elem_of_In, in_map_iff.
        exists (set_Risk r (Str "CRITICAL")). split; [done|].
        by apply list_elem_of_In. }
      apply list_elem_of_lookup_1 in Hhost as [k Hk]. exists k. split; [done|].
      rewrite outline_app, outline_report_layout, elem_of_app. right.
      unfold report_outline. apply (elem_of_concat_imap _ _ k (Host r)); [done|].
      unfold host_outline, severity_order. cbn [imap concat].
      right. apply elem_of_app. left. unfold severity_line.
      assert (Hr : set_Risk r (Str "CRITICAL")
                   ∈ rows_of (kept_rows df) (Host r) (Str "CRITICAL")).
      { by apply elem_of_rows_of. }
      destruct (rows_of (kept_rows df) (Host r) (Str "CRITICAL"));
        [by apply elem_of_nil in Hr|].
      by left.
Qed.

Lemma precedes_app {A} (x y : A) (p l q : list A) :
  precedes x y l -> precedes x y (p ++ l ++ q).
Proof.
  intros (l1 & l2 & l3 & ->). exists (p ++ l1), l2, (l3 ++ q).
  rewrite <- !app_assoc. simpl. rewrite <- !app_assoc. done.
Qed.

Section Precedes.
Context {A B : Type}.

Lemma precedes_map (f : A -> B) (x y : A) (l : list A) :
  precedes x y l -> precedes (f x) (f y) (map f l).
Proof.
  intros (l1 & l2 & l3 & ->). exists (map f l1), (map f l2), (map f l3).
  rewrite List.map_app. simpl. rewrite List.map_app. done.
Qed.

Lemma precedes_concat_map (F : A -> list B) (x y : B) (a : A) (l : list A) :
  a ∈ l -> precedes x y (F a) -> precedes x y (concat (map F l)).
Proof.
  intros Hin Hp. apply list_elem_of_split in Hin as (l1 & l2 & ->).
  rewrite List.map_app, concat_app. simpl.
  exact (precedes_app x y (concat (map F l1)) (F a) (concat (map F l2)) Hp).
Qed.
End Precedes.

(** C3. Grouping is stable: of two kept rows with the same host and the
    same normalized severity, the one that comes first in the input
    comes first in [grouped[host][severity]]; and when that severity is
    one the renderer walks, its table comes first in every report that
    is produced. *)
Theorem C3_grouping_stable (df l1 l2 l3 : DataFrame) (a b : Row) :
  df = l1 ++ a :: l2 ++ b :: l3 ->
  excluded a = false -> excluded b = false ->
  Host a = Host b ->
  normalize_risk (Risk a) = normalize_risk (Risk b) ->
  precedes (finding_of_row (normalize_row a)) (finding_of_row (normalize_row b))
    (grouped_at (group (kept_rows df)) (Host a) (normalize_risk (Risk a)))
  /\ (in_order (normalize_risk (Risk a)) = true ->
      forall env template output_path files doc files',
        generate_report env template output_path df files = (Ok doc, files') ->
        precedes (table_of (finding_of_row (normalize_row a)))
          (table_of (finding_of_row (normalize_row b))) (tables doc)).
Proof.
  intros Hdf Ha Hb Hhost Hrisk.
  assert (Hgroup : precedes (normalize_row a) (normalize_row b)
                     (rows_of (kept_rows df) (Host a) (normalize_risk (Risk a)))).
  { rewrite rows_of_kept_rows. apply precedes_map. rewrite Hdf.
    exists (List.filter
              (fun r => negb (excluded r)
                        && (bool_decide (Host r = Host a)
                            && bool_decide (normalize_risk (Risk r)
                                            = normalize_risk (Risk a)))) l1).
    eexists. eexists.
    rewrite List.filter_app. cbn [List.filter].
    rewrite Ha. rewrite !bool_decide_eq_true_2 by done. cbn [negb andb].
    rewrite List.filter_app. cbn [List.filter].
    rewrite Hb. rewrite !bool_decide_eq_true_2 by done. cbn [negb andb].
    reflexivity. }
  assert (Hfind : precedes (finding_of_row (normalize_row a))
                    (finding_of_row (normalize_row b))
                    (findings_of (kept_rows df) (Host a)
                       (normalize_risk (Risk a)))).
  { unfold findings_of. by apply precedes_map. }
  split; [by rewrite grouped_at_group|].
  intros Hord env template output_path files doc files' Hrun.
  apply generate_report_Ok in Hrun as (_ & _ & _ & ->).
  rewrite tables_app, tables_report_layout.
  rewrite <- (app_nil_r (report_tables _)). apply precedes_app.
  destruct (normalize_risk (Risk a)) as [|sev] eqn:Hsev; [done|].
  apply in_order_Str in Hord.
  unfold report_tables. apply (precedes_concat_map _ _ _ (Host a)).
  - apply elem_of_first_seen, list_elem_of_In, in_map_iff.
    exists (normalize_row a). split; [done|].
    unfold kept_rows. apply in_map, filter_In. split; [|by rewrite Ha].
    rewrite Hdf. apply in_or_app. right. by left.
  - unfold host_tables. apply (precedes_concat_map _ _ _ sev); [exact Hord|].
    by apply precedes_map.
Qed.

(** C4. Host sections come in the order in which the hosts first appear
    among the kept rows, and inside a host the severity groups come in
    the fixed order CRITICAL, MEDIUM, LOW whatever their order in the
    input: the host and severity headings of a produced report are,
    host by host in order of first occurrence, the host line followed by
    the lines of those of the three severities the host has, in that
    order. *)
Theorem C4_render_order (env : Env) (template : Document) (output_path : string)
    (df : DataFrame) (files files' : gset string) (doc : Document) :
  generate_report env template output_path df files = (Ok doc, files') ->
  exists body,
    doc = template ++ body
    /\ map fst (group (kept_rows df)) = first_seen (map Host (kept_rows df))
    /\ outline body
       = concat (imap (fun k host =>
                         ("3." +:+ str_of_nat (S k) +:+ " " +:+ format host)
                         :: severity_line (kept_rows df) (S k) host 1 "CRITICAL"
                         ++ severity_line (kept_rows df) (S k) host 2 "MEDIUM"
                         ++ severity_line (kept_rows df) (S k) host 3 "LOW")
                   (first_seen (map Host (kept_rows df)))).
Proof.
  intros Hrun. apply generate_report_Ok in Hrun as (_ & _ & _ & ->).
  exists (report_layout (kept_rows df)). split; [done|]. split.
  - rewrite group_severities_of, map_map. simpl. apply map_id.
  - rewrite outline_report_layout. unfold report_outline, hosts_of.
    f_equal. apply imap_ext. intros k host _.
    unfold host_outline, severity_order. cbn [imap concat]. unfold compose.
    cbn beta. by rewrite app_nil_r.
Qed.

Lemma total_expected_chart (title : string) (scope : DataFrame) :
  total (bars (expected_chart title scope))
  = length (List.filter (fun r => in_order (Risk r)) scope).
Proof.
  rewrite <- total_severity_counts, severity_counts_count_of. reflexivity.
Qed.

Lemma filter_forallb {A} (p : A -> bool) (l : list A) :
  forallb p l = true -> List.filter p l = l.
Proof.
  induction l as [|x l IH]; simpl; [done|]. intros H.
  apply andb_true_iff in H as [Hx Hl]. by rewrite Hx, (IH Hl).
Qed.

Lemma forallb_filter {A} (p q : A -> bool) (l : list A) :
  forallb p l = true -> forallb p (List.filter q l) = true.
Proof.
  rewrite !forallb_forall. intros H x Hx. apply filter_In in Hx as [Hx _]. auto.
Qed.

(** C5, as the program has it.  The charts of a produced report are the
    global chart, over the kept rows, followed by one chart per host in
    order of first occurrence, over the kept rows of that host.  Every
    one has the three bars CRITICAL, MEDIUM, LOW, each the number of
    rows of the scope with that severity, zero when there is none; the
    three counts sum to the number of rows of the scope whose severity
    is one of the three, which is the number of all rows of the scope
    when every kept row has such a severity. *)
Theorem C5_chart_totals (env : Env) (template : Document) (output_path : string)
    (df : DataFrame) (files files' : gset string) (doc : Document) :
  generate_report env template output_path df files = (Ok doc, files') ->
  let kept := kept_rows df in
  let chart title scope :=
    {| chart_title := title;
       bars := [ ("CRITICAL", count_of scope "CRITICAL");
                 ("MEDIUM", count_of scope "MEDIUM");
                 ("LOW", count_of scope "LOW") ];
       colors := ["red"; "orange"; "yellow"] |} in
  let global := chart "Vulnerabilities by Severity" kept in
  let of_host host :=
    chart (format host +:+ " - Vulnerabilities by Severity")
      (rows_of_host kept host) in
  charts doc
  = charts template ++ global :: map of_host (first_seen (map Host kept))
  /\ total (bars global)
     = length (List.filter (fun r => in_order (Risk r)) kept)
  /\ (forall host,
        total (bars (of_host host))
        = length (List.filter (fun r => in_order (Risk r))
                    (rows_of_host kept host)))
  /\ (forallb (fun r => in_order (Risk r)) kept = true ->
      total (bars global) = length kept
      /\ forall host,
           total (bars (of_host host)) = length (rows_of_host kept host)).
Proof.
  intros Hrun kept chart global of_host.
  apply generate_report_Ok in Hrun as (_ & Hrows & _ & ->).
  assert (Hchart : forall title scope, chart title scope = expected_chart title scope)
    by reflexivity.
  split; [|split; [|split]].
  - rewrite charts_app, charts_report_layout. f_equal. unfold report_charts.
    f_equal; [apply expected_chart_counts|].
    apply map_ext_in. intros host Hhost.
    apply list_elem_of_In, elem_of_first_seen, list_elem_of_In, in_map_iff
      in Hhost as (r & <- & Hr).
    destruct (renderable_hosts _ r Hrows (proj2 (list_elem_of_In _ _) Hr))
      as [h ->].
    unfold of_host, chart_of. cbn [format].
    by rewrite host_rows_Str, expected_chart_counts.
  - unfold global. rewrite Hchart. apply total_expected_chart.
  - intros host. unfold of_host. rewrite Hchart. apply total_expected_chart.
  - intros Hall. split.
    + unfold global. rewrite Hchart, total_expected_chart.
      by rewrite (filter_forallb _ _ Hall).
    + intros host. unfold of_host. rewrite Hchart, total_expected_chart.
      rewrite filter_forallb; [done|]. by apply forallb_filter.
Qed.

(** C6, as the program has it.  When the chart image can be written, the
    chart step either embeds it and then deletes the transient file, or
    fails to embed it: the error then reaches the caller, no deletion
    is attempted and the file stays on disk. *)
Theorem C6_transient_chart_file (env : Env) (df : DataFrame) (doc : Document)
    (chart_name title : string) (files : gset string) :
  savefig_ok env chart_name = true ->
  if add_picture_ok env chart_name then
    add_severity_chart env df doc chart_name title files
    = (Ok (doc ++ [Picture chart_name (chart_of title df)]),
       files ∖ {[chart_name]})
    /\ chart_name ∉ files ∖ {[chart_name]}
  else
    add_severity_chart env df doc chart_name title files
    = (Raise PictureError, {[chart_name]} ∪ files)
    /\ chart_name ∈ {[chart_name]} ∪ files.
Proof.
  intros Hfig. rewrite add_severity_chart_run, Hfig.
  destruct (add_picture_ok env chart_name); (split; [done|set_solver]).
Qed.

Lemma elem_of_grouped_at (df : DataFrame) (r : Row) :
  r ∈ df -> excluded r = false ->
  finding_of_row (normalize_row r)
  ∈ grouped_at (group (kept_rows df)) (Host r) (normalize_risk (Risk r)).
Proof.
  intros Hin Hex. rewrite grouped_at_group. unfold findings_of.
  apply list_elem_of_In, in_map, list_elem_of_In, elem_of_rows_of.
  split; [by apply elem_of_kept_rows|done].
Qed.

(** C7, as the program has it.  A kept row with a missing name,
    description or solution goes through normalization and grouping
    unchanged, the finding holding the missing value; when its
    normalized severity is CRITICAL, MEDIUM or LOW, writing the missing
    value into its block raises, so that no report is produced. *)
Theorem C7_missing_field (env : Env) (template : Document) (output_path : string)
    (df : DataFrame) (files : gset string) (r : Row) :
  r ∈ df -> excluded r = false ->
  Name r = NaN \/ Description r = NaN \/ Solution r = NaN ->
  normalize_row r ∈ kept_rows df
  /\ finding_of_row (normalize_row r)
     ∈ grouped_at (group (kept_rows df)) (Host r) (normalize_risk (Risk r))
  /\ title (finding_of_row (normalize_row r)) = Name r
  /\ description (finding_of_row (normalize_row r)) = Description r
  /\ solution (finding_of_row (normalize_row r)) = Solution r
  /\ (in_order (normalize_risk (Risk r)) = true ->
      is_ok (generate_report env template output_path df files).1 = false).
Proof.
  intros Hin Hex Hmiss.
  split; [by apply elem_of_kept_rows|]. split; [by apply elem_of_grouped_at|].
  split; [done|]. split; [done|]. split; [done|].
  intros Hord.
  destruct (generate_report env template output_path df files)
    as [[doc|e] files'] eqn:Hrun; [|done].
  exfalso. apply generate_report_Ok in Hrun as (_ & Hrows & _ & _).
  unfold renderable in Hrows. rewrite forallb_forall in Hrows.
  specialize (Hrows (normalize_row r)
                (proj1 (list_elem_of_In _ _) (elem_of_kept_rows df r Hin Hex))).
  unfold renderable_row in Hrows. cbn [normalize_row set_Risk Host Risk Name
    Description Solution] in Hrows.
  rewrite Hord in Hrows. cbn [negb orb] in Hrows.
  apply andb_true_iff in Hrows as [_ Hrows].
  apply andb_true_iff in Hrows as [Hrows Hsol].
  apply andb_true_iff in Hrows as [Hname Hdesc].
  destruct Hmiss as [H|[H|H]]; rewrite H in *; done.
Qed.

(** C8. Report generation is deterministic in the rows and the template:
    two runs that produce a report from the same rows and the same
    template, whatever the files present, the outcomes of the
    environment and the output path of either, produce the same
    document, texts and chart data alike. *)
Theorem C8_deterministic (env1 env2 : Env) (template : Document)
    (output_path1 output_path2 : string) (df : DataFrame)
    (files1 files2 files1' files2' : gset string) (doc1 doc2 : Document) :
  generate_report env1 template output_path1 df files1 = (Ok doc1, files1') ->
  generate_report env2 template output_path2 df files2 = (Ok doc2, files2') ->
  doc1 = doc2 /\ charts doc1 = charts doc2 /\ outline doc1 = outline doc2.
Proof.
  intros H1 H2.
  apply generate_report_Ok in H1 as (_ & _ & _ & ->).
  apply generate_report_Ok in H2 as (_ & _ & _ & ->). done.
Qed.

(** C9. When the severity column holds a text, the kept rows can be
    rendered and the environment lets the charts be drawn and the
    document be written, the report is produced and holds, after the
    template: a page break; the statistics section with the global
    chart, closed by a page break; the executive-summary placeholder,
    closed by a page break; the heading of the third section; then for
    each host, in order of first occurrence among the kept rows, its
    heading, the chart of its rows and, for each of CRITICAL, MEDIUM,
    LOW that it has, a sub-heading and one block per row of that
    severity, in the order of the table.  A block is a heading with the
    name, a table and a page break; the table has the name on the
    colour of the severity (red, orange, yellow), the label of the
    severity, the description, the impact placeholder, and the
    solution on the accent colour.  Any report that is produced is this
    one. *)
Theorem C9_report_layout (env : Env) (template : Document) (output_path : string)
    (df : DataFrame) (files : gset string) :
  infer_dtype (map Risk df) = object ->
  renderable (kept_rows df) = true ->
  env_ok env output_path (kept_rows df) = true ->
  let kept := kept_rows df in
  let fill severity :=
    if decide (severity = "CRITICAL") then "FF0000"
    else if decide (severity = "MEDIUM") then "FFA500" else "FFFF00" in
  let chart title scope :=
    {| chart_title := title;
       bars := [ ("CRITICAL", count_of scope "CRITICAL");
                 ("MEDIUM", count_of scope "MEDIUM");
                 ("LOW", count_of scope "LOW") ];
       colors := ["red"; "orange"; "yellow"] |} in
  let layout :=
    [ PageBreak;
      Paragraph "1. Statistics" "Heading 1";
      Picture "severity_chart.png" (chart "Vulnerabilities by Severity" kept);
      Paragraph nl "Normal";
      PageBreak;
      Paragraph "2. Executive Summary" "Heading 1";
      Paragraph ("Add executive summary here..." +:+ nl) "Normal";
      PageBreak;
      Paragraph "3. Vulnerabilities and Remediations" "Heading 1" ]
    ++ concat (imap (fun k host =>
         [ Paragraph ("3." +:+ str_of_nat (S k) +:+ " " +:+ format host) "Heading 2";
           Picture (replace_char "."%char "_"%char (format host) +:+ "_chart.png")
             (chart (format host +:+ " - Vulnerabilities by Severity")
                (List.filter (fun r => bool_decide (Host r = host)) kept)) ]
         ++ concat (imap (fun i severity =>
              match List.filter (fun r => bool_decide (Host r = host)
                                          && bool_decide (Risk r = Str severity))
                      kept with
              | [] => []
              | rows =>
                  Paragraph ("3." +:+ str_of_nat (S k) +:+ "." +:+ str_of_nat (S i)
                             +:+ " " +:+ capitalize severity
                             +:+ " Vulnerabilities") "Heading 3"
                  :: concat (imap (fun j r =>
                       [ Paragraph ("3." +:+ str_of_nat (S k) +:+ "."
                                    +:+ str_of_nat (S i) +:+ "."
                                    +:+ str_of_nat (S j) +:+ " "
                                    +:+ format (Name r)) "Heading 4";
                         Table
                           [ {| shading := [fill severity];
                                paragraphs :=
                                  [[bold_run (format (Name r)) 16
                                      (Some "FFFFFF")]] |};
                             {| shading := [];
                                paragraphs :=
                                  [[bold_run ("Risk: " +:+ severity) 12 None]] |};
                             {| shading := [];
                                paragraphs :=
                                  [ [bold_run "Description:" 12 None];
                                    plain_paragraph (format (Description r)) ] |};
                             {| shading := [];
                                paragraphs :=
                                  [ [bold_run "Impact:" 12 None];
                                    plain_paragraph
                                      "Impact information not available." ] |};
                             {| shading := ["9ACD32"];
                                paragraphs :=
                                  [ [bold_run "Remediation:" 12 None];
                                    plain_paragraph (format (Solution r)) ] |} ];
                         PageBreak ]) rows)
              end) ["CRITICAL"; "MEDIUM"; "LOW"]))
         (first_seen (map Host kept))) in
  (exists files',
     generate_report env template output_path df files
     = (Ok (template ++ layout), files'))
  /\ (forall env0 path0 files0 doc files1,
        generate_report env0 template path0 df files0 = (Ok doc, files1) ->
        doc = template ++ layout).
Proof.
  intros Hdt Hrows Henv kept fill chart layout.
  assert (Hlayout : layout = expected_layout kept).
  { reflexivity. }
  rewrite Hlayout. split.
  - destruct (generate_report_ok env template output_path df files Hdt Hrows Henv)
      as [files' Hrun].
    exists files'. rewrite Hrun. f_equal. f_equal. f_equal.
    apply report_layout_expected. intros r Hr.
    by apply (renderable_hosts (kept_rows df)).
  - intros env0 path0 files0 doc files1 Hrun.
    by apply generate_report_expected in Hrun.
Qed.

Lemma elem_of_report_tables (df : DataFrame) (t : list Cell) :
  t ∈ report_tables df ->
  exists host severity f,
    severity ∈ severity_order
    /\ f ∈ findings_of df host (Str severity)
    /\ risk f = Str severity
    /\ t = table_of f.
Proof.
  unfold report_tables, host_tables. rewrite list_elem_of_In, in_concat.
  intros (ts & Hts & Ht). apply in_map_iff in Hts as (host & <- & _).
  apply in_concat in Ht as (ts & Hts & Ht).
  apply in_map_iff in Hts as (severity & <- & Hsev).
  apply in_map_iff in Ht as (f & <- & Hf).
  exists host, severity, f. split; [by apply list_elem_of_In|].
  split; [by apply list_elem_of_In|]. split; [|done].
  unfold findings_of in Hf. apply in_map_iff in Hf as (r & <- & Hr).
  by apply list_elem_of_In, elem_of_rows_of in Hr as (_ & _ & Hr).
Qed.

Lemma filter_length_lt {A} (p : A -> bool) (l : list A) (x : A) :
  x ∈ l -> p x = false -> length (List.filter p l) < length l.
Proof.
  intros Hin Hp. induction l as [|y l IH]; [by apply elem_of_nil in Hin|].
  simpl. pose proof (filter_length_le p l) as Hle.
  apply elem_of_cons in Hin as [<-|Hin].
  - rewrite Hp. lia.
  - specialize (IH Hin). destruct (p y); simpl; lia.
Qed.

(** C10, as the program has it.  A kept row whose normalized severity is
    none of CRITICAL, MEDIUM, LOW survives filtering and is filed under
    that severity, but the renderer walks the three severities only: a
    produced report has no table for it, every table it has is the table
    of a finding of one of the three severities with a red, orange or
    yellow title cell, and no bar counts the row, so that the counts of
    the global chart and of the chart of its host sum to fewer than the
    kept rows in scope. *)
Theorem C10_unlisted_severity (df : DataFrame) (r : Row) :
  r ∈ df -> excluded r = false ->
  in_order (normalize_risk (Risk r)) = false ->
  let kept := kept_rows df in
  let f := finding_of_row (normalize_row r) in
  normalize_row r ∈ kept
  /\ f ∈ grouped_at (group kept) (Host r) (normalize_risk (Risk r))
  /\ (forall env template output_path files doc files',
        generate_report env template output_path df files = (Ok doc, files') ->
        tables doc = tables template ++ report_tables kept)
  /\ (table_of f ∉ report_tables kept)
  /\ (forall t, t ∈ report_tables kept ->
        exists f', t = table_of f' /\ in_order (risk f') = true
                   /\ (title_fill t ∈ [["FF0000"]; ["FFA500"]; ["FFFF00"]]))
  /\ total (severity_counts kept) < length kept
  /\ (forall host, Host r = Str host ->
        total (severity_counts (host_rows kept host))
        < length (host_rows kept host)).
Proof.
  intros Hin Hex Hord kept f.
  assert (Hkept : normalize_row r ∈ kept) by by apply elem_of_kept_rows.
  split; [done|]. split; [by apply elem_of_grouped_at|]. split; [|split; [|split; [|split]]].
  - intros env template output_path files doc files' Hrun.
    apply generate_report_Ok in Hrun as (_ & _ & _ & ->).
    by rewrite tables_app, tables_report_layout.
  - intros Ht. apply elem_of_report_tables in Ht
      as (host & severity & f' & Hsev & _ & Hrisk & Heq).
    destruct (kept_rows_Risk df _ Hkept) as [s Hs].
    apply (f_equal (fun cells : list Cell =>
                      match cells with
                      | _ :: {| paragraphs := (run :: _) :: _ |} :: _ => run_text run
                      | _ => EmptyString
                      end)) in Heq.
    subst f. unfold table_of in Heq. cbn beta iota in Heq.
    change (risk (finding_of_row (normalize_row r)))
      with (Risk (normalize_row r)) in Heq.
    rewrite Hs, Hrisk in Heq. cbn in Heq. simplify_eq.
    change (Risk (normalize_row r)) with (normalize_risk (Risk r)) in Hs.
    rewrite Hs in Hord.
    apply in_order_Str in Hsev. congruence.
  - intros t Ht. apply elem_of_report_tables in Ht
      as (host & severity & f' & Hsev & _ & Hrisk & ->).
    exists f'. split; [done|]. rewrite Hrisk. split; [by apply in_order_Str|].
    unfold title_fill, table_of. cbn [shading]. rewrite Hrisk. cbn [format].
    rewrite (get_severity_color_order _ Hsev).
    unfold severity_order in Hsev.
    rewrite !elem_of_cons, elem_of_nil in Hsev.
    destruct Hsev as [->|[->|[->|[]]]]; rewrite !elem_of_cons; auto.
  - rewrite total_severity_counts.
    by apply (filter_length_lt _ _ (normalize_row r)).
  - intros host Hhost. rewrite total_severity_counts.
    apply (filter_length_lt _ _ (normalize_row r)); [|done].
    unfold host_rows. apply list_elem_of_In, filter_In.
    split; [by apply list_elem_of_In|].
    cbn [normalize_row set_Risk Host]. rewrite Hhost. simpl.
    by apply bool_decide_eq_true.
Qed.

(** * Further properties of the program *)

(** ** Letter case *)

Lemma str_map_ascii (f : ascii -> ascii) (s : string) :
  (forall c, is_ascii c = true -> is_ascii (f c) = true) ->
  str_forall is_ascii s = true -> str_forall is_ascii (str_map f s) = true.
Proof.
  intros Hf. induction s as [|c s IH]; simpl; [done|].
  intros H. apply andb_true_iff in H as [Hc Hs]. by rewrite (Hf c Hc), (IH Hs).
Qed.

Lemma ascii_lower_ascii (c : ascii) :
  is_ascii c = true -> is_ascii (ascii_lower c) = true.
Proof. destruct c as [[] [] [] [] [] [] [] []]; done. Qed.

Lemma ascii_upper_lower (s : string) :
  str_map ascii_upper (str_map ascii_lower s) = str_map ascii_upper s.
Proof.
  induction s as [|c s IH]; simpl; [done|]. rewrite IH. f_equal.
  destruct c as [[] [] [] [] [] [] [] []]; reflexivity.
Qed.

Lemma upper_ascii_lower (s : string) :
  str_forall is_ascii s = true -> upper (str_map ascii_lower s) = upper s.
Proof.
  intros H. rewrite (upper_ascii s H).
  rewrite upper_ascii by (apply str_map_ascii; [apply ascii_lower_ascii|done]).
  apply ascii_upper_lower.
Qed.

(** X1. Upper-casing a severity does not change its colour, and neither
    does lower-casing the letters of a severity written in ASCII; the
    colour is one of the four colours of the palette. *)
Theorem X1_severity_color_case (s : string) :
  get_severity_color (upper s) = get_severity_color s
  /\ (str_forall is_ascii s = true ->
      get_severity_color (str_map ascii_lower s) = get_severity_color s)
  /\ get_severity_color s ∈ ["FF0000"; "FFA500"; "FFFF00"; "D3D3D3"].
Proof.
  unfold get_severity_color. rewrite upper_idem.
  split; [done|]. split; [intros H; by rewrite (upper_ascii_lower s H)|].
  rewrite !elem_of_cons.
  destruct (bool_decide (upper s = "CRITICAL") || bool_decide (upper s = "HIGH"));
    [auto|].
  destruct (bool_decide (upper s = "MEDIUM")); [auto|].
  destruct (bool_decide (upper s = "LOW")); auto.
Qed.

(** ** The normalizer *)

Lemma normalize_risk_Str (s : string) :
  normalize_risk (Str s)
  = if decide (upper s = "HIGH") then Str "CRITICAL" else Str (upper s).
Proof.
  unfold normalize_risk, replace_value. simpl.
  destruct (decide (Str (upper s) = Str "HIGH")) as [H|H];
    destruct (decide (upper s = "HIGH")) as [H'|H']; try done.
  - by injection H.
  - by rewrite H' in H.
Qed.

Lemma upper_CRITICAL : upper "CRITICAL" = "CRITICAL".
Proof. by apply upper_printable_const. Qed.

Lemma normalize_risk_CRITICAL : normalize_risk (Str "CRITICAL") = Str "CRITICAL".
Proof. rewrite normalize_risk_Str, upper_CRITICAL. by rewrite decide_False. Qed.

Lemma normalize_risk_idem (v : value) :
  normalize_risk (normalize_risk v) = normalize_risk v.
Proof.
  destruct v as [|s]; [done|]. rewrite normalize_risk_Str.
  destruct (decide (upper s = "HIGH")) as [H|H]; [apply normalize_risk_CRITICAL|].
  rewrite normalize_risk_Str, upper_idem. by rewrite decide_False.
Qed.

Lemma lower_upper_none (s : string) : lower (upper s) = "none" <-> lower s = "none".
Proof. by rewrite !lower_none, upper_idem. Qed.


Lemma kept_rows_elem (df : DataFrame) (r : Row) :
  r ∈ kept_rows df ->
  exists r0, r0 ∈ df /\ excluded r0 = false /\ r = normalize_row r0.
Proof.
  unfold kept_rows. rewrite list_elem_of_In, in_map_iff.
  intros (r0 & <- & Hin). apply filter_In in Hin as [Hin Hex].
  exists r0. split; [by apply list_elem_of_In|].
  split; [|done]. by destruct (excluded r0).
Qed.

(** X3. Every row of the normalized table has a severity that is a text
    in upper case, different from [HIGH] and from [NONE]. *)
Theorem X3_kept_severities (df kept : DataFrame) (r : Row) :
  normalize df = Ok kept -> r ∈ kept ->
  exists s, Risk r = Str s /\ upper s = s /\ s <> "HIGH" /\ s <> "NONE".
Proof.
  intros Hnorm Hin. apply normalize_Ok in Hnorm as [_ ->].
  apply kept_rows_elem in Hin as (r0 & _ & Hex & ->).
  unfold excluded in Hex. cbn [normalize_row set_Risk Risk].
  destruct (Risk r0) as [|s0]; [done|].
  apply bool_decide_eq_false in Hex. rewrite normalize_risk_Str.
  destruct (decide (upper s0 = "HIGH")) as [H|H].
  - exists "CRITICAL". repeat split; try done. apply upper_CRITICAL.
  - exists (upper s0). split; [done|]. split; [apply upper_idem|].
    split; [done|]. intros Hnone. apply Hex. by apply lower_none.
Qed.

Lemma filter_all {A} (p : A -> bool) (l : list A) :
  (forall x, x ∈ l -> p x = true) -> List.filter p l = l.
Proof.
  induction l as [|x l IH]; intros H; simpl; [done|].
  rewrite (H x) by by left. f_equal. apply IH. intros y Hy. apply H. by right.
Qed.

Lemma kept_rows_idem (df : DataFrame) : kept_rows (kept_rows df) = kept_rows df.
Proof.
  unfold kept_rows at 1.
  assert (Hrow : forall r, r ∈ kept_rows df ->
                   excluded r = false /\ normalize_row r = r).
  { intros r Hr. apply kept_rows_elem in Hr as (r0 & _ & Hex & ->).
    unfold excluded in *. unfold normalize_row at 2 3.
    cbn [normalize_row set_Risk Risk Host Name Description Solution].
    pose proof (normalize_risk_idem (Risk r0)) as Hidem.
    split.
    - destruct (Risk r0) as [|s0]; [done|].
      apply bool_decide_eq_false in Hex. rewrite normalize_risk_Str.
      destruct (decide (upper s0 = "HIGH")).
      + apply bool_decide_eq_false. intros Hn.
        apply lower_none in Hn. by rewrite upper_CRITICAL in Hn.
      + apply bool_decide_eq_false. intros Hn.
        apply Hex. by apply lower_upper_none.
    - unfold set_Risk. cbn. by rewrite Hidem. }
  rewrite filter_all by (intros r Hr; by rewrite (proj1 (Hrow r Hr))).
  rewrite <- (map_id (kept_rows df)) at 2. apply map_ext_in.
  intros r Hr. apply Hrow. by apply list_elem_of_In.
Qed.

Lemma kept_rows_dtype (df : DataFrame) :
  infer_dtype (map Risk (kept_rows df)) = object.
Proof.
  destruct (kept_rows df) as [|r kept] eqn:E; [done|].
  assert (Hr : r ∈ kept_rows df) by (rewrite E; by left).
  rewrite <- E. apply (infer_dtype_object _ r Hr).
  destruct (kept_rows_Risk df r Hr) as [s ->]. done.
Qed.

(** X4. The normalizer is idempotent: a table it has produced goes
    through it again unchanged, without raising. *)
Theorem X4_normalize_idempotent (df kept : DataFrame) :
  normalize df = Ok kept -> normalize kept = Ok kept.
Proof.
  intros Hnorm. apply normalize_Ok in Hnorm as [_ ->].
  rewrite (normalize_object _ (kept_rows_dtype df)). by rewrite kept_rows_idem.
Qed.

(** X5. When the table has rows and the severity of every one is
    missing, report generation raises [AttributeError] at the first
    string operation on the column: no chart is drawn, no file is
    written or removed. *)
Theorem X5_all_severities_missing (env : Env) (template : Document)
    (output_path : string) (df : DataFrame) (files : gset string) :
  df <> [] -> (forall r, r ∈ df -> Risk r = NaN) ->
  generate_report env template output_path df files
  = (Raise AttributeError, files).
Proof.
  intros Hne Hall.
  assert (Hdt : infer_dtype (map Risk df) = float64).
  { unfold infer_dtype. destruct df as [|r df]; [done|]. cbn [map].
    assert (Hex : existsb notna (map Risk (r :: df)) = false).
    { apply not_true_iff_false. intros Hex.
      apply existsb_exists in Hex as (v & Hv & Hna).
      apply in_map_iff in Hv as (r' & <- & Hr').
      rewrite (Hall r') in Hna by by apply list_elem_of_In. done. }
    cbn [map] in Hex. by rewrite Hex. }
  unfold generate_report, normalize, filter_rows. by rewrite Hdt.
Qed.

(** X6. When no row is kept (an empty table, or one whose rows all read
    [none]) and the global chart and the document can be written, the
    report is the template followed by the three fixed sections, with a
    chart whose three bars are zero and no host section; on disk the
    output file is added and a file named like the global chart, if
    there was one, is gone. *)
Theorem X6_no_kept_row (env : Env) (template : Document) (output_path : string)
    (df : DataFrame) (files : gset string) :
  infer_dtype (map Risk df) = object ->
  (forall r, r ∈ df -> excluded r = true) ->
  savefig_ok env "severity_chart.png" = true ->
  add_picture_ok env "severity_chart.png" = true ->
  save_ok env output_path = true ->
  generate_report env template output_path df files
  = (Ok (template
         ++ [ PageBreak;
              Paragraph "1. Statistics" "Heading 1";
              Picture "severity_chart.png"
                {| chart_title := "Vulnerabilities by Severity";
                   bars := [("CRITICAL", 0); ("MEDIUM", 0); ("LOW", 0)];
                   colors := ["red"; "orange"; "yellow"] |};
              Paragraph nl "Normal";
              PageBreak;
              Paragraph "2. Executive Summary" "Heading 1";
              Paragraph ("Add executive summary here..." +:+ nl) "Normal";
              PageBreak;
              Paragraph "3. Vulnerabilities and Remediations" "Heading 1" ]),
     {[output_path]} ∪ files ∖ {["severity_chart.png"]}).
Proof.
  intros Hdt Hall Hfig Hpic Hsave.
  assert (Hkept : kept_rows df = []).
  { unfold kept_rows.
    assert (Hf : List.filter (fun r => negb (excluded r)) df = []).
    { clear Hdt. induction df as [|r df IH]; [done|]. simpl.
      rewrite (Hall r) by by left. simpl. apply IH.
      intros r' Hr'. apply Hall. by right. }
    by rewrite Hf. }
  rewrite generate_report_steps, (normalize_object df Hdt), Hkept.
  rewrite add_severity_chart_run, Hfig, Hpic.
  cbn [group fold_left render_hosts]. unfold mret, M_ret. rewrite Hsave.
  rewrite <- !app_assoc. reflexivity.
Qed.

(** ** Grouping keeps every finding once *)

Lemma filter_split_perm {A} (p : A -> bool) (l : list A) :
  List.filter p l ++ List.filter (fun x => negb (p x)) l ≡ₚ l.
Proof.
  induction l as [|x l IH]; simpl; [done|].
  destruct (p x); simpl.
  - by constructor.
  - rewrite <- Permutation_middle. by constructor.
Qed.

Lemma concat_map_perm_ext {A B} (F G : A -> list B) (l : list A) :
  (forall x, x ∈ l -> F x ≡ₚ G x) -> concat (map F l) ≡ₚ concat (map G l).
Proof.
  induction l as [|x l IH]; intros H; simpl; [done|].
  apply Permutation_app.
  - apply H. by left.
  - apply IH. intros y Hy. apply H. by right.
Qed.

Lemma concat_map_map {A B C} (f : B -> C) (F : A -> list B) (l : list A) :
  concat (map (fun x => map f (F x)) l) = map f (concat (map F l)).
Proof.
  induction l as [|x l IH]; simpl; [done|]. by rewrite IH, List.map_app.
Qed.

Section Partition.
Context {X K : Type} `{EqDecision K}.
Variable key : X -> K.

Lemma partition_by_key (ks : list K) (l : list X) :
  NoDup ks -> (forall x, x ∈ l -> key x ∈ ks) ->
  concat (map (fun k => List.filter (fun x => bool_decide (key x = k)) l) ks)
  ≡ₚ l.
Proof.
  intros Hnd. revert l. induction Hnd as [|k ks Hk Hnd IH]; intros l Hcover.
  - destruct l as [|x l]; [done|].
    specialize (Hcover x (list_elem_of_here _ _)). by apply elem_of_nil in Hcover.
  - cbn [map concat].
    etrans; [|apply (filter_split_perm (fun x => bool_decide (key x = k)) l)].
    apply Permutation_app; [done|].
    etrans;
      [|apply (IH (List.filter (fun x => negb (bool_decide (key x = k))) l))].
    + apply concat_map_perm_ext. intros k' Hk'.
      rewrite filter_filter_and.
      assert (Hext : List.filter (fun x => bool_decide (key x = k')) l
                     = List.filter
                         (fun x => negb (bool_decide (key x = k))
                                   && bool_decide (key x = k')) l).
      { apply filter_ext. intros x.
        destruct (decide (key x = k')) as [Heq|Hne].
        - rewrite (bool_decide_eq_true_2 _ Heq).
          rewrite bool_decide_eq_false_2; [done|]. intros Heq'.
          apply Hk. by rewrite <- Heq', Heq.
        - rewrite (bool_decide_eq_false_2 _ Hne). by rewrite andb_false_r. }
      by rewrite Hext.
    + intros x Hx. apply list_elem_of_In, filter_In in Hx as [Hx Hne].
      apply list_elem_of_In, Hcover, elem_of_cons in Hx as [Heq|Hx]; [|done].
      apply negb_true_iff, bool_decide_eq_false in Hne. done.
Qed.

Lemma partition_first_seen (l : list X) :
  concat (map (fun k => List.filter (fun x => bool_decide (key x = k)) l)
            (first_seen (map key l)))
  ≡ₚ l.
Proof.
  apply partition_by_key; [apply NoDup_first_seen|].
  intros x Hx. apply elem_of_first_seen, list_elem_of_In, in_map.
  by apply list_elem_of_In.
Qed.
End Partition.

Lemma all_findings_group (df : DataFrame) :
  all_findings (group df)
  = concat (map (fun h =>
                   concat (map (fun s => findings_of df h s)
                             (first_seen
                                (map Risk
                                   (List.filter
                                      (fun r => bool_decide (Host r = h)) df)))))
              (hosts_of df)).
Proof.
  unfold all_findings. rewrite group_severities_of, map_map. cbn [snd].
  apply (f_equal (@concat Finding)). apply map_ext. intros h.
  unfold severities_of. by rewrite map_map.
Qed.

(** X7. Grouping loses no finding and repeats none: the findings of all
    groups, taken together, are the findings of the rows of the table,
    up to order. *)
Theorem X7_group_permutation (df : DataFrame) :
  all_findings (group df) ≡ₚ map finding_of_row df.
Proof.
  rewrite all_findings_group.
  etrans; [|apply Permutation_map, (partition_first_seen Host df)].
  rewrite <- concat_map_map. apply concat_map_perm_ext. intros h _.
  unfold findings_of, rows_of.
  rewrite concat_map_map. apply Permutation_map.
  etrans;
    [|apply (partition_first_seen Risk
               (List.filter (fun r => bool_decide (Host r = h)) df))].
  apply concat_map_perm_ext. intros s _. by rewrite filter_filter_and.
Qed.


(** ** Files on disk *)

Lemma add_severity_chart_frame (env : Env) (df : DataFrame) (doc : Document)
    (chart_name title : string) (files : gset string) :
  (forall f, f <> chart_name ->
     f ∈ (add_severity_chart env df doc chart_name title files).2 <-> f ∈ files)
  /\ (savefig_ok env chart_name = false ->
      add_severity_chart env df doc chart_name title files
      = (Raise SaveFigError, files)).
Proof.
  rewrite add_severity_chart_run. split.
  - intros f Hf.
    destruct (savefig_ok env chart_name); [|done].
    destruct (add_picture_ok env chart_name); cbn [snd]; set_solver.
  - by intros ->.
Qed.

(** X9. Whatever its outcome, the chart step touches no file other than
    its own chart file; when the image cannot be drawn it raises and
    changes nothing on disk. *)
Theorem X9_chart_step_frame (env : Env) (df : DataFrame) (doc : Document)
    (chart_name title : string) (files : gset string) :
  (forall f, f <> chart_name ->
     f ∈ (add_severity_chart env df doc chart_name title files).2 <-> f ∈ files)
  /\ (savefig_ok env chart_name = false ->
      add_severity_chart env df doc chart_name title files
      = (Raise SaveFigError, files)).
Proof. apply add_severity_chart_frame. Qed.

Lemma render_hosts_frame (env : Env) (df : DataFrame) (items : Grouped)
    (host_count : nat) (doc : Document) (files : gset string) (f : string) :
  f ∉ map (fun entry => chart_file_of entry.1) items ->
  f ∈ (render_hosts env df items host_count doc files).2 <-> f ∈ files.
Proof.
  revert host_count doc files.
  induction items as [|[host severities] items IH]; intros host_count doc files Hf;
    [done|].
  cbn [map fst] in Hf. apply not_elem_of_cons in Hf as [Hne Hf].
  cbn [render_hosts]. unfold mbind, M_bind, lift.
  destruct (doc_add_paragraph _ _ _) as [doc1|e]; [|done].
  destruct host as [|s]; [done|]. cbn [str_method format].
  rewrite add_severity_chart_run. unfold chart_file_of in Hne. cbn [format] in Hne.
  destruct (savefig_ok env _); [|done].
  destruct (add_picture_ok env _); [|cbn [snd]; set_solver].
  destruct (render_severities _ _ _ _ _) as [doc'|e].
  - rewrite (IH _ _ _ Hf). set_solver.
  - cbn [snd]. set_solver.
Qed.

Lemma render_hosts_Ok_files (env : Env) (df : DataFrame) (items : Grouped)
    (host_count : nat) (doc doc' : Document) (files files' : gset string) :
  render_hosts env df items host_count doc files = (Ok doc', files') ->
  files' = files ∖ list_to_set (map (fun entry => chart_file_of entry.1) items).
Proof.
  revert host_count doc files.
  induction items as [|[host severities] items IH]; intros host_count doc files Hrun.
  - cbn in Hrun. injection Hrun as _ <-. cbn. set_solver.
  - cbn [render_hosts] in Hrun. unfold mbind, M_bind, lift in Hrun.
    destruct (doc_add_paragraph _ _ _) as [doc1|e]; [|done].
    destruct host as [|s]; [done|]. cbn [str_method format] in Hrun.
    rewrite add_severity_chart_run in Hrun.
    destruct (savefig_ok env _); [|done].
    destruct (add_picture_ok env _); [|done].
    destruct (render_severities _ _ _ _ _) as [doc0|e]; [|done].
    apply IH in Hrun. rewrite Hrun. cbn [map fst list_to_set].
    unfold chart_file_of at 2. cbn [format]. set_solver.
Qed.

Lemma group_keys (df : DataFrame) : map fst (group df) = hosts_of df.
Proof. rewrite group_severities_of, map_map. cbn [fst]. apply map_id. Qed.

Lemma group_chart_files (df : DataFrame) :
  map (fun entry : value * Severities => chart_file_of entry.1) (group df)
  = map chart_file_of (hosts_of df).
Proof. by rewrite <- group_keys, map_map. Qed.

(** X10. After a run that produces a report, the files on disk are the
    files there were, less every file named like a chart of the report
    (the transient images, and any earlier file of such a name), plus
    the output file. *)
Theorem X10_files_after_success (env : Env) (template : Document)
    (output_path : string) (df : DataFrame) (files files' : gset string)
    (doc : Document) :
  generate_report env template output_path df files = (Ok doc, files') ->
  files' = {[output_path]} ∪ files ∖ list_to_set (chart_files (kept_rows df)).
Proof.
  intros Hrun.
  assert (Hdt : infer_dtype (map Risk df) = object).
  { by apply generate_report_Ok in Hrun as (? & _). }
  rewrite generate_report_steps, (normalize_object df Hdt) in Hrun.
  rewrite add_severity_chart_run in Hrun.
  destruct (savefig_ok env "severity_chart.png"); [|done].
  destruct (add_picture_ok env "severity_chart.png"); [|done].
  destruct (render_hosts _ _ _ _ _ _) as [[doc0|e] files0] eqn:Hhosts; [|done].
  apply render_hosts_Ok_files in Hhosts. rewrite group_chart_files in Hhosts.
  destruct (save_ok env output_path); [|done].
  injection Hrun as _ <-. rewrite Hhosts. unfold chart_files.
  cbn [list_to_set]. set_solver.
Qed.

(** X11. A run creates and removes no file other than the charts of the
    report and the output file; and a run that raises does not write
    the output file. *)
Theorem X11_files_frame (env : Env) (template : Document) (output_path : string)
    (df : DataFrame) (files : gset string) (f : string) :
  f ∉ chart_files (kept_rows df) ->
  f <> output_path
  \/ is_ok (generate_report env template output_path df files).1 = false ->
  f ∈ (generate_report env template output_path df files).2 <-> f ∈ files.
Proof.
  intros Hf. unfold chart_files in Hf.
  apply not_elem_of_cons in Hf as [Hne Hf].
  rewrite generate_report_steps.
  destruct (normalize df) as [kept|e] eqn:Hnorm; [|done].
  apply normalize_Ok in Hnorm as [_ ->].
  pose proof (proj1 (add_severity_chart_frame env (kept_rows df)
                (template ++ [PageBreak; Paragraph "1. Statistics" "Heading 1"])
                "severity_chart.png" "Vulnerabilities by Severity" files) f Hne)
    as Hchart.
  destruct (add_severity_chart _ _ _ _ _ _) as [[doc|e] files1]; [|done].
  cbn [snd] in Hchart. rewrite <- group_chart_files in Hf.
  match goal with
  | |- context [render_hosts ?e ?d ?items ?hc ?doc0 ?fs] =>
      pose proof (render_hosts_frame e d items hc doc0 fs f Hf) as Hhosts;
      destruct (render_hosts e d items hc doc0 fs) as [[doc'|e'] files2]
  end; cbn [snd] in Hhosts.
  - destruct (save_ok env output_path); cbn [fst snd is_ok].
    + intros [Hout|Hout]; [|done]. rewrite elem_of_union, Hhosts, Hchart.
      set_solver.
    + intros _. by rewrite Hhosts, Hchart.
  - intros _. cbn [snd]. by rewrite Hhosts, Hchart.
Qed.

(** ** Blocks, bars and their numbers *)

Lemma length_concat_map_sum {A B} (F : A -> list B) (l : list A) :
  length (concat (map F l)) = sum_list (map (fun x => length (F x)) l).
Proof.
  induction l as [|x l IH]; simpl; [done|]. by rewrite length_app, IH.
Qed.

Lemma sum_list_map_ext {A} (f g : A -> nat) (l : list A) :
  (forall x, x ∈ l -> f x = g x) -> sum_list (map f l) = sum_list (map g l).
Proof.
  induction l as [|x l IH]; intros H; simpl; [done|].
  rewrite (H x) by by left. f_equal. apply IH. intros y Hy. apply H. by right.
Qed.

Lemma sum_by_host (p : Row -> bool) (df : DataFrame) :
  sum_list
    (map (fun h =>
            length (List.filter p
                      (List.filter (fun r => bool_decide (Host r = h)) df)))
       (hosts_of df))
  = length (List.filter p df).
Proof.
  assert (Hcover : forall r, r ∈ List.filter p df -> Host r ∈ hosts_of df).
  { intros r Hr. apply list_elem_of_In, filter_In in Hr as [Hr _].
    apply elem_of_first_seen, list_elem_of_In, in_map. done. }
  rewrite <- (Permutation_length
                (partition_by_key Host (hosts_of df) (List.filter p df)
                   (NoDup_first_seen _) Hcover)).
  rewrite length_concat_map_sum. apply sum_list_map_ext. intros h _.
  rewrite !filter_filter_and. f_equal. apply filter_ext. intros r.
  apply andb_comm.
Qed.

Lemma length_host_tables (df : DataFrame) (h : value) :
  length (host_tables df h)
  = length (List.filter (fun r => in_order (Risk r))
              (List.filter (fun r => bool_decide (Host r = h)) df)).
Proof.
  rewrite <- total_severity_counts, severity_counts_count_of.
  unfold host_tables, severity_order, total, count_of, findings_of, rows_of.
  cbn [map concat foldr snd]. rewrite !length_app, !length_map.
  rewrite !filter_filter_and. cbn [length]. lia.
Qed.

(** X12. A produced report holds one finding table for every kept row
    whose severity is CRITICAL, MEDIUM or LOW, and no other: the number
    of tables the run appends is the sum of the three bars of the global
    chart. *)
Theorem X12_tables_match_chart (env : Env) (template : Document)
    (output_path : string) (df : DataFrame) (files files' : gset string)
    (doc : Document) :
  generate_report env template output_path df files = (Ok doc, files') ->
  length (tables doc)
  = length (tables template)
    + length (List.filter (fun r => in_order (Risk r)) (kept_rows df))
  /\ length (List.filter (fun r => in_order (Risk r)) (kept_rows df))
     = total (severity_counts (kept_rows df)).
Proof.
  intros Hrun. apply generate_report_Ok in Hrun as (_ & _ & _ & ->).
  split; [|by rewrite total_severity_counts].
  rewrite tables_app, length_app, tables_report_layout. f_equal.
  unfold report_tables. rewrite length_concat_map_sum.
  rewrite <- (sum_by_host (fun r => in_order (Risk r)) (kept_rows df)).
  apply sum_list_map_ext. intros h _. apply length_host_tables.
Qed.

Lemma bar_chart_of (label title : string) (scope : DataFrame) :
  bar label (chart_of title scope)
  = if decide (label ∈ severity_order) then count_of scope label else 0.
Proof.
  unfold bar, chart_of. cbn [bars]. rewrite severity_counts_count_of.
  rewrite (dict_get_map (fun l => count_of scope l)).
  by destruct (decide (label ∈ severity_order)).
Qed.

(** X13. In a produced report the charts are the global chart followed
    by one chart per host, and bar by bar the charts of the hosts add up
    to the global chart. *)
Theorem X13_host_charts_add_up (env : Env) (template : Document)
    (output_path : string) (df : DataFrame) (files files' : gset string)
    (doc : Document) :
  generate_report env template output_path df files = (Ok doc, files') ->
  exists global per_host,
    charts doc = charts template ++ global :: per_host
    /\ length per_host = length (hosts_of (kept_rows df))
    /\ forall label, bar label global = sum_list (map (bar label) per_host).
Proof.
  intros Hrun. apply generate_report_Ok in Hrun as (_ & Hrows & _ & ->).
  rewrite charts_app, charts_report_layout. unfold report_charts.
  eexists. eexists. split; [reflexivity|]. split; [by rewrite length_map|].
  intros label. rewrite map_map, bar_chart_of.
  destruct (decide (label ∈ severity_order)) as [Hin|Hout].
  - unfold count_of.
    rewrite <- (sum_by_host (fun r => bool_decide (Risk r = Str label))
                  (kept_rows df)).
    apply sum_list_map_ext. intros h Hh. rewrite bar_chart_of.
    rewrite decide_True by done. unfold count_of.
    destruct h as [|s]; [|by rewrite host_rows_Str].
    exfalso. apply (proj1 (elem_of_first_seen _ _)), list_elem_of_In,
      in_map_iff in Hh as (r & Hr & Hrin).
    unfold renderable in Hrows. rewrite forallb_forall in Hrows.
    specialize (Hrows r Hrin). unfold renderable_row in Hrows.
    rewrite Hr in Hrows. done.
  - symmetry. rewrite <- (sum_list_map_ext (fun _ => 0)).
    + clear. induction (hosts_of (kept_rows df)); simpl; done.
    + intros h _. rewrite bar_chart_of. by rewrite decide_False.
Qed.

(** ** The table of a finding *)

Lemma add_run_error (v : value) :
  text_ok v = false -> add_run v = Raise (text_error v).
Proof.
  destruct v as [|s]; [done|]. cbn [text_ok text_error add_run]. intros H.
  rewrite H. destruct s; [|done]. by rewrite xml_empty in H.
Qed.

Lemma add_paragraph_error (cell : Cell) (text : value) (bold : bool) (size : nat)
    (color : option string) :
  text_ok text = false ->
  add_paragraph cell text bold size color = Raise (text_error text).
Proof. intros H. unfold add_paragraph. by rewrite (add_run_error _ H). Qed.

Lemma cell_add_paragraph_error (cell : Cell) (text : value) :
  text_ok text = false -> cell_add_paragraph cell text = Raise (text_error text).
Proof.
  intros H. unfold cell_add_paragraph. destruct text as [|[|c s]].
  - done.
  - cbn [text_ok] in H. by rewrite xml_empty in H.
  - by rewrite (add_run_error _ H).
Qed.

(** X14. Building the table of a finding raises [AttributeError] when
    the severity is missing.  Otherwise the title, the label of the
    severity, the description and the solution are written in that
    order, and the first of them that the document does not take
    raises: [TypeError] for a missing value, [ValueError] for a text
    the XML library refuses.  When all four are taken, the table is
    built. *)
Theorem X14_render_table_outcome (vuln : Finding) :
  render_table vuln
  = match risk vuln with
    | NaN => Raise AttributeError
    | Str severity =>
        if negb (text_ok (title vuln)) then Raise (text_error (title vuln))
        else if negb (xml_compatible severity) then Raise ValueError
        else if negb (text_ok (description vuln))
        then Raise (text_error (description vuln))
        else if negb (text_ok (solution vuln))
        then Raise (text_error (solution vuln))
        else Ok (table_of vuln)
    end.
Proof.
  destruct vuln as [t d s [|r]]; [done|].
  cbn [risk title description solution].
  destruct (text_ok t) eqn:Ht; cbn [negb].
  2:{ unfold render_table. cbn [risk title str_method]. rewrite bind_Ok.
      by rewrite (add_paragraph_error _ _ _ _ _ Ht). }
  destruct (xml_compatible r) eqn:Hr; cbn [negb].
  2:{ unfold render_table. cbn [risk title str_method format]. rewrite bind_Ok.
      destruct t as [|t]; [done|]. cbn [text_ok] in Ht.
      unfold new_cell, set_cell_background. cbn [shading paragraphs app].
      rewrite (add_paragraph_new _ t 16 _ _ Ht font_color_white), bind_Ok.
      rewrite (add_paragraph_error _ (Str ("Risk: " +:+ r))); [done|].
      cbn [text_ok]. by rewrite xml_label. }
  destruct (text_ok d) eqn:Hd; cbn [negb].
  2:{ unfold render_table. cbn [risk title description str_method format].
      rewrite bind_Ok.
      destruct t as [|t]; [done|]. cbn [text_ok] in Ht.
      unfold new_cell, set_cell_background. cbn [shading paragraphs app].
      rewrite (add_paragraph_new _ t 16 _ _ Ht font_color_white), bind_Ok.
      rewrite (add_paragraph_new [] ("Risk: " +:+ r) 12 None None);
        [|by rewrite xml_label|done].
      rewrite bind_Ok.
      rewrite (add_paragraph_new [] "Description:" 12 None None);
        [|by apply xml_printable_text|done].
      rewrite bind_Ok. by rewrite (cell_add_paragraph_error _ _ Hd). }
  destruct (text_ok s) eqn:Hs; cbn [negb].
  2:{ unfold render_table.
      cbn [risk title description solution str_method format].
      rewrite bind_Ok.
      destruct t as [|t]; [done|]. cbn [text_ok] in Ht.
      destruct d as [|d]; [done|]. cbn [text_ok] in Hd.
      unfold new_cell, set_cell_background. cbn [shading paragraphs app].
      rewrite (add_paragraph_new _ t 16 _ _ Ht font_color_white), bind_Ok.
      rewrite (add_paragraph_new [] ("Risk: " +:+ r) 12 None None);
        [|by rewrite xml_label|done].
      rewrite bind_Ok.
      rewrite (add_paragraph_new [] "Description:" 12 None None);
        [|by apply xml_printable_text|done].
      rewrite bind_Ok, (cell_add_paragraph_ok _ d Hd), bind_Ok.
      rewrite (add_paragraph_new [] "Impact:" 12 None None);
        [|by apply xml_printable_text|done].
      rewrite bind_Ok,
        (cell_add_paragraph_ok _ "Impact information not available.");
        [|by apply xml_printable_text].
      rewrite bind_Ok.
      rewrite (add_paragraph_new ["9ACD32"] "Remediation:" 12 None None);
        [|by apply xml_printable_text|done].
      rewrite bind_Ok. by rewrite (cell_add_paragraph_error _ _ Hs). }
  apply render_table_ok. unfold renderable_finding.
  cbn [risk title description solution text_ok]. by rewrite Hr, Ht, Hd, Hs.
Qed.

(** X15. A table that is built has five cells; the first is shaded once,
    with the colour of the severity, the last once, with the accent
    colour, and the three between are not shaded; the cells hold one,
    one, two, two and two paragraphs, and the run that opens each cell
    is bold, in Aptos. *)
Theorem X15_render_table_shape (vuln : Finding) (cells : list Cell) :
  render_table vuln = Ok cells ->
  length cells = 5
  /\ map shading cells
     = [[get_severity_color (format (risk vuln))]; []; []; []; ["9ACD32"]]
  /\ map (fun cell => length (paragraphs cell)) cells = [1; 1; 2; 2; 2]
  /\ forall cell, cell ∈ cells ->
       exists run runs rest,
         paragraphs cell = (run :: runs) :: rest
         /\ run_bold run = true /\ run_font run = Some "Aptos".
Proof.
  intros Hrun.
  assert (Hok : renderable_finding vuln = true).
  { destruct (renderable_finding vuln) eqn:E; [done|].
    apply render_table_fail in E. by rewrite Hrun in E. }
  rewrite (render_table_ok vuln Hok) in Hrun. injection Hrun as <-.
  unfold table_of. cbn [length map shading paragraphs].
  repeat split; try done.
  intros cell Hcell. rewrite !elem_of_cons, elem_of_nil in Hcell.
  destruct Hcell as [->|[->|[->|[->|[->|[]]]]]]; cbn [paragraphs];
    eexists; eexists; eexists; (split; [reflexivity|done]).
Qed.

(** ** When a report is produced *)

(** X16. A kept row without a host makes report generation fail,
    whatever its severity. *)
Theorem X16_missing_host (env : Env) (template : Document) (output_path : string)
    (df : DataFrame) (files : gset string) (r : Row) :
  r ∈ df -> excluded r = false -> Host r = NaN ->
  is_ok (generate_report env template output_path df files).1 = false.
Proof.
  intros Hin Hex Hhost.
  destruct (generate_report env template output_path df files)
    as [[doc|e] files'] eqn:Hrun; [|done].
  exfalso. apply generate_report_Ok in Hrun as (_ & Hrows & _ & _).
  unfold renderable in Hrows. rewrite forallb_forall in Hrows.
  specialize (Hrows (normalize_row r)
                (proj1 (list_elem_of_In _ _) (elem_of_kept_rows df r Hin Hex))).
  unfold renderable_row in Hrows. cbn [normalize_row set_Risk Host] in Hrows.
  by rewrite Hhost in Hrows.
Qed.

(** X17. A report is produced exactly when the severity column holds a
    text (or the table is empty), the host of every kept row is a text
    the document takes, so are the name, the description and the
    solution of every kept row of severity CRITICAL, MEDIUM or LOW,
    each chart can be drawn and embedded, and the document can be
    written. *)
Theorem X17_success_conditions (env : Env) (template : Document)
    (output_path : string) (df : DataFrame) (files : gset string) :
  is_ok (generate_report env template output_path df files).1 = true
  <-> infer_dtype (map Risk df) = object
      /\ renderable (kept_rows df) = true
      /\ env_ok env output_path (kept_rows df) = true.
Proof.
  split.
  - destruct (generate_report env template output_path df files)
      as [[doc|e] files'] eqn:Hrun; [|done].
    intros _. apply generate_report_Ok in Hrun. tauto.
  - intros (Hdt & Hrows & Henv).
    destruct (generate_report_ok env template output_path df files Hdt Hrows Henv)
      as [files' ->].
    done.
Qed.

(** X18. Exactly the rows of severity CRITICAL, HIGH, MEDIUM or LOW, in
    any letter case, are rendered: the tables a run adds to the
    template are the tables of those rows, each with the name, the
    description and the solution of its row, a row of severity HIGH
    giving a table of severity CRITICAL; a row of another severity, or
    of none, gives no table. *)
Theorem X18_rendered_rows (env : Env) (template : Document)
    (output_path : string) (df : DataFrame) (files files' : gset string)
    (doc : Document) (t : list Cell) :
  generate_report env template output_path df files = (Ok doc, files') ->
  t ∈ tables doc
  <-> t ∈ tables template
      \/ exists r s severity,
           r ∈ df /\ Risk r = Str s
           /\ severity ∈ ["CRITICAL"; "MEDIUM"; "LOW"]
           /\ (upper s = severity \/ upper s = "HIGH" /\ severity = "CRITICAL")
           /\ t = expected_table severity (Name r) (Description r) (Solution r).
Proof.
  intros Hrun. apply generate_report_Ok in Hrun as (_ & _ & _ & ->).
  rewrite tables_app, tables_report_layout, elem_of_app.
  apply or_iff_compat_l. split.
  - intros Ht. apply elem_of_report_tables in Ht
      as (host & severity & f & Hsev & Hf & _ & ->).
    unfold findings_of in Hf.
    apply list_elem_of_In, in_map_iff in Hf as (r' & <- & Hr').
    apply list_elem_of_In, elem_of_rows_of in Hr' as (Hr' & _ & Hs).
    rewrite (table_of_expected r' severity Hsev Hs).
    apply kept_rows_elem in Hr' as (r & Hin & Hex & ->).
    cbn [normalize_row set_Risk Risk Name Description Solution] in *.
    unfold excluded in Hex. destruct (Risk r) as [|s] eqn:Hrisk; [done|].
    exists r, s, severity. split; [done|]. split; [done|]. split; [done|].
    split; [|done]. rewrite normalize_risk_Str in Hs.
    destruct (decide (upper s = "HIGH")) as [Hh|Hh].
    + right. split; [done|]. congruence.
    + left. congruence.
  - intros (r & s & severity & Hin & Hrisk & Hsev & Hup & ->).
    assert (Hnorm : normalize_risk (Risk r) = Str severity).
    { rewrite Hrisk, normalize_risk_Str. destruct Hup as [<-|[Hh ->]].
      - rewrite decide_False; [done|]. intros Hh. rewrite Hh in Hsev.
        rewrite !elem_of_cons, elem_of_nil in Hsev. naive_solver.
      - by rewrite decide_True. }
    assert (Hex : excluded r = false).
    { unfold excluded. rewrite Hrisk. apply bool_decide_eq_false.
      intros Hn. apply lower_none in Hn. rewrite Hn in Hup.
      destruct Hup as [<-|[Hh _]]; [|done].
      rewrite !elem_of_cons, elem_of_nil in Hsev. naive_solver. }
    change (expected_table severity (Name r) (Description r) (Solution r))
      with (expected_table severity (Name (normalize_row r))
              (Description (normalize_row r)) (Solution (normalize_row r))).
    rewrite <- (table_of_expected (normalize_row r) severity Hsev Hnorm).
    apply (report_tables_elem _ _ severity); [|done|done].
    by apply elem_of_kept_rows.
Qed.

(** ** Cells *)

Lemma add_run_Ok (s s' : string) : add_run (Str s) = Ok s' -> s' = s.
Proof.
  unfold add_run. destruct s as [|c s]; [congruence|].
  destruct (xml_compatible _); congruence.
Qed.

Lemma font_color_Ok (color rgb : option string) :
  font_color color = Ok rgb -> rgb = color_of color.
Proof.
  unfold font_color, color_of. destruct color as [[|c s]|]; try congruence.
  destruct (rgb_from_string _); congruence.
Qed.

Lemma add_paragraph_Ok (cell cell' : Cell) (s : string) (bold : bool) (size : nat)
    (color : option string) :
  add_paragraph cell (Str s) bold size color = Ok cell' ->
  cell'
  = {| shading := shading cell;
       paragraphs :=
         (default [] (head (paragraphs cell))
          ++ [ {| run_text := s; run_bold := bold; run_size := Some size;
                  run_font := Some "Aptos"; run_color := color_of color |} ])
         :: tail (paragraphs cell) |}.
Proof.
  unfold add_paragraph. intros H.
  destruct (add_run (Str s)) as [s'|e] eqn:Hs; [|done].
  apply add_run_Ok in Hs as ->. rewrite bind_Ok in H.
  destruct (font_color color) as [rgb|e] eqn:Hc; [|done].
  apply font_color_Ok in Hc as ->. rewrite bind_Ok in H. injection H as <-.
  by destruct (paragraphs cell).
Qed.

(** X19. Two texts added to a cell one after the other end up as two
    runs, in that order, at the end of the first paragraph of the cell,
    each in Aptos, of the given size and weight, and coloured when a
    colour is given that is not empty; the cell keeps its fills and its
    other paragraphs, and an empty cell gets the one paragraph that
    holds them. *)
Theorem X19_add_paragraph_twice (cell cell1 cell2 : Cell) (s1 s2 : string)
    (bold1 bold2 : bool) (size1 size2 : nat) (color1 color2 : option string) :
  add_paragraph cell (Str s1) bold1 size1 color1 = Ok cell1 ->
  add_paragraph cell1 (Str s2) bold2 size2 color2 = Ok cell2 ->
  shading cell2 = shading cell
  /\ length (paragraphs cell2) = max 1 (length (paragraphs cell))
  /\ head (paragraphs cell2)
     = Some (default [] (head (paragraphs cell))
             ++ [ {| run_text := s1; run_bold := bold1; run_size := Some size1;
                     run_font := Some "Aptos";
                     run_color := match color1 with
                                  | None | Some EmptyString => None
                                  | Some c => rgb_from_string c
                                  end |};
                  {| run_text := s2; run_bold := bold2; run_size := Some size2;
                     run_font := Some "Aptos";
                     run_color := match color2 with
                                  | None | Some EmptyString => None
                                  | Some c => rgb_from_string c
                                  end |} ])
  /\ tail (paragraphs cell2) = tail (paragraphs cell).
Proof.
  intros H1 H2. apply add_paragraph_Ok in H1 as ->.
  apply add_paragraph_Ok in H2 as ->. cbn [shading paragraphs]. simpl.
  rewrite <- app_assoc. repeat split; try done.
  destruct (paragraphs cell); simpl; lia.
Qed.

(** X20. Shading a cell adds a fill and keeps the earlier ones, so that
    shading twice leaves two fills; it does not touch the texts, and it
    does not matter whether a cell is shaded before or after a text is
    added to it. *)
Theorem X20_set_cell_background (cell : Cell) (a b : string) (text : value)
    (bold : bool) (size : nat) (color : option string) :
  shading (set_cell_background (set_cell_background cell a) b)
  = shading cell ++ [a; b]
  /\ paragraphs (set_cell_background cell a) = paragraphs cell
  /\ add_paragraph (set_cell_background cell a) text bold size color
     = (add_paragraph cell text bold size color
        ≫= fun c => Ok (set_cell_background c a)).
Proof.
  split; [|split].
  - unfold set_cell_background. cbn. by rewrite <- app_assoc.
  - done.
  - unfold add_paragraph.
    destruct (add_run text) as [s|e]; [|done]. rewrite !bind_Ok.
    by destruct (font_color color) as [rgb|e].
Qed.

End Properties.

(** * The sample inputs

    The statements above, applied to the sample tables, with the
    library on ASCII texts. *)

Section Samples.
#[local] Existing Instance ascii_lib.

Lemma C1_excluded_rows_witness :
  normalize scenario = Ok (kept_rows scenario)
  /\ length (kept_rows scenario) = 4
  /\ severity_counts (kept_rows scenario)
     = [("CRITICAL", 2); ("MEDIUM", 1); ("LOW", 1)].
Proof.
  destruct (C1_excluded_rows scenario) as (H1 & _ & _ & _ & _); [reflexivity|].
  split; [exact H1|]. split; vm_compute; reflexivity.
Defined.

Lemma C2_high_is_critical_witness :
  exists kept,
    normalize scenario = Ok kept
    /\ set_Risk (text_row "h1" "high" "D" "dd" "sd") (Str "CRITICAL") ∈ kept
    /\ exists n, ("CRITICAL", n) ∈ severity_counts kept /\ 0 < n.
Proof.
  destruct (C2_high_is_critical scenario (text_row "h1" "high" "D" "dd" "sd")
              "high") as [(kept & Hnorm & Hkept & _ & Hbar & _) _].
  - unfold scenario. rewrite !elem_of_cons. tauto.
  - reflexivity.
  - reflexivity.
  - exists kept. split; [exact Hnorm|]. split; [exact Hkept|exact Hbar].
Defined.

Lemma C3_grouping_stable_witness :
  precedes
    (finding_of_row (normalize_row (text_row "h1" "High" "A" "da" "sa")))
    (finding_of_row (normalize_row (text_row "h1" "high" "D" "dd" "sd")))
    (grouped_at (group (kept_rows scenario)) (Str "h1") (Str "CRITICAL")).
Proof.
  exact (proj1 (C3_grouping_stable scenario []
                  [ text_row "h1" "None" "N" "dn" "sn";
                    text_row "h1" "Low" "B" "db" "sb";
                    text_row "h2" "Medium" "C" "dc" "sc" ] []
                  (text_row "h1" "High" "A" "da" "sa")
                  (text_row "h1" "high" "D" "dd" "sd")
                  eq_refl eq_refl eq_refl eq_refl eq_refl)).
Defined.

(** ** The claims about the report *)

Lemma run_scenario :
  generate_report all_ok [] "report.docx" scenario ∅
  = (Ok (report_layout (kept_rows scenario)),
     (generate_report all_ok [] "report.docx" scenario ∅).2).
Proof.
  rewrite (surjective_pairing (generate_report all_ok [] "report.docx" scenario ∅))
    at 1.
  f_equal; vm_compute; reflexivity.
Qed.

Lemma C4_render_order_witness :
  exists body,
    report_layout (kept_rows scenario) = [] ++ body
    /\ outline body
       = ["3.1 h1"; "3.1.1 Critical Vulnerabilities"; "3.1.3 Low Vulnerabilities";
          "3.2 h2"; "3.2.2 Medium Vulnerabilities"].
Proof.
  destruct (C4_render_order all_ok [] "report.docx" scenario ∅ _ _ run_scenario)
    as (body & Hbody & _ & Hout).
  exists body. split; [exact Hbody|]. rewrite Hout. vm_compute. reflexivity.
Defined.

Lemma run_info_rows :
  generate_report all_ok [] "report.docx" info_rows ∅
  = (Ok (report_layout (kept_rows info_rows)),
     (generate_report all_ok [] "report.docx" info_rows ∅).2).
Proof.
  rewrite (surjective_pairing
             (generate_report all_ok [] "report.docx" info_rows ∅)) at 1.
  f_equal; vm_compute; reflexivity.
Qed.

Lemma C5_chart_totals_witness :
  map bars (charts (report_layout (kept_rows scenario)))
  = [ [("CRITICAL", 2); ("MEDIUM", 1); ("LOW", 1)];
      [("CRITICAL", 2); ("MEDIUM", 0); ("LOW", 1)];
      [("CRITICAL", 0); ("MEDIUM", 1); ("LOW", 0)] ].
Proof.
  rewrite (proj1 (C5_chart_totals all_ok [] "report.docx" scenario ∅ _ _
                    run_scenario)).
  vm_compute. reflexivity.
Defined.

(** Against C5 as stated: one kept row of severity [Info]; the report is
    produced, its two charts have counts summing to zero, and one
    finding is kept in either scope. *)
Lemma C5_counterexample :
  exists doc files',
    generate_report all_ok [] "report.docx" info_rows ∅ = (Ok doc, files')
    /\ map (fun c => total (bars c)) (charts doc) = [0; 0]
    /\ length (kept_rows info_rows) = 1
    /\ length (host_rows (kept_rows info_rows) "h1") = 1.
Proof.
  eexists. eexists. split; [exact run_info_rows|].
  repeat split; vm_compute; reflexivity.
Qed.

Lemma C6_transient_chart_file_witness :
  add_severity_chart all_ok scenario [] "severity_chart.png" "t" ∅
  = (Ok [Picture "severity_chart.png" (chart_of "t" scenario)],
     ∅ ∖ {["severity_chart.png"]}).
Proof.
  exact (proj1 (C6_transient_chart_file all_ok scenario [] "severity_chart.png"
                  "t" ∅ eq_refl)).
Defined.

(** Against C6 as stated: embedding fails, the error is raised, and the
    chart file is still on disk afterwards, for the chart step and for
    the whole run. *)
Lemma C6_counterexample :
  add_severity_chart embed_fails (kept_rows scenario) [] "severity_chart.png"
    "Vulnerabilities by Severity" ∅
  = (Raise PictureError, {["severity_chart.png"]} ∪ ∅)
  /\ "severity_chart.png" ∈ ({["severity_chart.png"]} ∪ ∅ : gset string)
  /\ (generate_report embed_fails [] "report.docx" scenario ∅).1
     = Raise PictureError
  /\ "severity_chart.png"
     ∈ (generate_report embed_fails [] "report.docx" scenario ∅).2.
Proof.
  split; [by rewrite add_severity_chart_run|]. split; [set_solver|].
  assert (Hrun : generate_report embed_fails [] "report.docx" scenario ∅
                 = (Raise PictureError, {["severity_chart.png"]} ∪ ∅)).
  { rewrite generate_report_steps, (normalize_object scenario eq_refl).
    by rewrite add_severity_chart_run. }
  rewrite Hrun. split; [done|set_solver].
Qed.

Lemma C7_missing_field_witness :
  is_ok (generate_report all_ok [] "report.docx" missing_name_rows ∅).1 = false.
Proof.
  refine (proj2 (proj2 (proj2 (proj2 (proj2
            (C7_missing_field all_ok [] "report.docx" missing_name_rows ∅
               {| Host := Str "h1"; Risk := Str "Low"; Name := NaN;
                  Description := Str "da"; Solution := Str "sa" |} _ _ _)))))
            _).
  - unfold missing_name_rows. apply list_elem_of_singleton. reflexivity.
  - reflexivity.
  - left. reflexivity.
  - reflexivity.
Defined.

(** Against C7 as stated: one kept row of severity [Low] without a
    name; report generation fails with a [TypeError]. *)
Lemma C7_counterexample :
  normalize missing_name_rows
  = Ok [ {| Host := Str "h1"; Risk := Str "LOW"; Name := NaN;
            Description := Str "da"; Solution := Str "sa" |} ]
  /\ (generate_report all_ok [] "report.docx" missing_name_rows ∅).1
     = Raise TypeError.
Proof. split; vm_compute; reflexivity. Qed.

Lemma run_scenario_picky :
  generate_report picky [] "second.docx" scenario {["h1_chart.png"; "old.txt"]}
  = (Ok (report_layout (kept_rows scenario)),
     (generate_report picky [] "second.docx" scenario
        {["h1_chart.png"; "old.txt"]}).2).
Proof.
  rewrite (surjective_pairing
             (generate_report picky [] "second.docx" scenario
                {["h1_chart.png"; "old.txt"]})) at 1.
  f_equal; vm_compute; reflexivity.
Qed.

Lemma C8_deterministic_witness :
  report_layout (kept_rows scenario) = report_layout (kept_rows scenario)
  /\ charts (report_layout (kept_rows scenario))
     = charts (report_layout (kept_rows scenario))
  /\ outline (report_layout (kept_rows scenario))
     = outline (report_layout (kept_rows scenario)).
Proof.
  exact (C8_deterministic all_ok picky [] "report.docx" "second.docx" scenario
           ∅ {["h1_chart.png"; "old.txt"]} _ _ _ _ run_scenario
           run_scenario_picky).
Defined.

Lemma C9_report_layout_witness :
  is_ok (generate_report all_ok [] "report.docx" scenario ∅).1 = true.
Proof.
  destruct (C9_report_layout all_ok [] "report.docx" scenario ∅)
    as [[files' Hrun] _].
  - reflexivity.
  - vm_compute. reflexivity.
  - vm_compute. reflexivity.
  - rewrite Hrun. reflexivity.
Defined.

Lemma C10_unlisted_severity_witness :
  total (severity_counts (kept_rows info_rows)) < length (kept_rows info_rows).
Proof.
  refine (proj1 (proj2 (proj2 (proj2 (proj2 (proj2
            (C10_unlisted_severity info_rows (text_row "h1" "Info" "A" "da" "sa")
               _ _ _))))))).
  - unfold info_rows. apply list_elem_of_singleton. reflexivity.
  - reflexivity.
  - reflexivity.
Defined.

(** Against C10 as stated: the only kept row has severity [Info]; the
    report is produced and holds no table at all, hence no title cell
    filled with the default gray. *)
Lemma C10_counterexample :
  exists doc files',
    generate_report all_ok [] "report.docx" info_rows ∅ = (Ok doc, files')
    /\ map Risk (kept_rows info_rows) = [Str "INFO"]
    /\ get_severity_color "INFO" = "D3D3D3"
    /\ tables doc = [].
Proof.
  eexists. eexists. split; [exact run_info_rows|].
  repeat split; vm_compute; reflexivity.
Qed.

Lemma X1_severity_color_case_witness :
  get_severity_color (str_map ascii_lower "High") = get_severity_color "High"
  /\ get_severity_color "High" = "FF0000".
Proof.
  split; [|reflexivity].
  exact (proj1 (proj2 (X1_severity_color_case "High")) eq_refl).
Defined.


Lemma X3_kept_severities_witness :
  exists s, Risk (normalize_row (text_row "h1" "high" "D" "dd" "sd")) = Str s
            /\ upper s = s /\ s <> "HIGH" /\ s <> "NONE".
Proof.
  apply (X3_kept_severities scenario (kept_rows scenario)).
  - reflexivity.
  - apply elem_of_kept_rows; [|reflexivity].
    unfold scenario. rewrite !elem_of_cons. tauto.
Defined.

Lemma X4_normalize_idempotent_witness :
  normalize (kept_rows scenario) = Ok (kept_rows scenario).
Proof. apply (X4_normalize_idempotent scenario). reflexivity. Defined.

Lemma X5_all_severities_missing_witness :
  generate_report all_ok [] "report.docx" all_missing_rows {["old.txt"]}
  = (Raise AttributeError, {["old.txt"]}).
Proof.
  apply X5_all_severities_missing; [done|].
  intros r Hr. unfold all_missing_rows in Hr.
  apply list_elem_of_singleton in Hr as ->. reflexivity.
Defined.

Lemma X6_no_kept_row_witness :
  exists doc,
    generate_report all_ok [] "report.docx" only_excluded {["severity_chart.png"]}
    = (Ok doc, {["report.docx"]} ∪ {["severity_chart.png"]} ∖ {["severity_chart.png"]})
    /\ length doc = 9.
Proof.
  eexists. split.
  - apply (X6_no_kept_row all_ok [] "report.docx" only_excluded);
      try reflexivity.
    intros r Hr. unfold only_excluded in Hr.
    rewrite !elem_of_cons, elem_of_nil in Hr.
    destruct Hr as [->|[->|[]]]; reflexivity.
  - reflexivity.
Defined.

Lemma X10_files_after_success_witness :
  (generate_report all_ok [] "report.docx" scenario
     {["h1_chart.png"; "old.txt"]}).2
  = {["report.docx"]}
    ∪ {["h1_chart.png"; "old.txt"]} ∖ list_to_set (chart_files (kept_rows scenario)).
Proof.
  apply (X10_files_after_success all_ok [] "report.docx" scenario _ _
           (report_layout (kept_rows scenario))).
  rewrite (surjective_pairing
             (generate_report all_ok [] "report.docx" scenario
                {["h1_chart.png"; "old.txt"]})) at 1.
  f_equal; vm_compute; reflexivity.
Defined.

Lemma X11_files_frame_witness :
  "old.txt" ∈ (generate_report embed_fails [] "report.docx" scenario
                 {["old.txt"]}).2
  <-> "old.txt" ∈ ({["old.txt"]} : gset string).
Proof.
  apply X11_files_frame.
  - vm_compute. intros H. inversion H as [|? ? ? H1]; subst.
    inversion H1 as [|? ? ? H2]; subst. inversion H2 as [|? ? ? H3]; subst.
    inversion H3.
  - left. done.
Defined.

Lemma X12_tables_match_chart_witness :
  length (tables (report_layout (kept_rows scenario)))
  = length (tables (@nil block))
    + length (List.filter (fun r => in_order (Risk r)) (kept_rows scenario)).
Proof.
  exact (proj1 (X12_tables_match_chart all_ok [] "report.docx" scenario ∅ _ _
                  run_scenario)).
Defined.

Lemma X13_host_charts_add_up_witness :
  exists global per_host,
    charts (report_layout (kept_rows scenario)) = [] ++ global :: per_host
    /\ length per_host = 2
    /\ forall label, bar label global = sum_list (map (bar label) per_host).
Proof.
  exact (X13_host_charts_add_up all_ok [] "report.docx" scenario ∅ _ _
           run_scenario).
Defined.

Lemma X15_render_table_shape_witness :
  length (table_of (finding_of_row (text_row "h1" "LOW" "B" "db" "sb"))) = 5.
Proof.
  exact (proj1 (X15_render_table_shape
                  (finding_of_row (text_row "h1" "LOW" "B" "db" "sb")) _
                  eq_refl)).
Defined.

Lemma X16_missing_host_witness :
  is_ok (generate_report all_ok [] "report.docx" missing_host_rows ∅).1 = false.
Proof.
  apply (X16_missing_host all_ok [] "report.docx" missing_host_rows ∅
           {| Host := NaN; Risk := Str "Info"; Name := Str "B";
              Description := Str "db"; Solution := Str "sb" |}).
  - unfold missing_host_rows. rewrite !elem_of_cons. tauto.
  - reflexivity.
  - reflexivity.
Defined.

Lemma X18_rendered_rows_witness :
  expected_table "CRITICAL" (Str "D") (Str "dd") (Str "sd")
  ∈ tables (report_layout (kept_rows scenario)).
Proof.
  apply (proj2 (X18_rendered_rows all_ok [] "report.docx" scenario ∅ _ _ _
                  run_scenario)).
  right. exists (text_row "h1" "high" "D" "dd" "sd"), "high", "CRITICAL".
  split; [unfold scenario; rewrite !elem_of_cons; tauto|].
  split; [reflexivity|]. split; [rewrite !elem_of_cons; tauto|].
  split; [right; split; reflexivity|reflexivity].
Defined.

Lemma X19_add_paragraph_twice_witness :
  length (paragraphs
            {| shading := [];
               paragraphs := [[bold_run "a" 12 None; bold_run "b" 12 None]] |})
  = max 1 (length (paragraphs {| shading := []; paragraphs := [] |})).
Proof.
  exact (proj1 (proj2
           (X19_add_paragraph_twice
              {| shading := []; paragraphs := [] |}
              {| shading := []; paragraphs := [[bold_run "a" 12 None]] |}
              {| shading := [];
                 paragraphs := [[bold_run "a" 12 None; bold_run "b" 12 None]] |}
              "a" "b" true true 12 12 None None eq_refl eq_refl))).
Defined.

End Samples.
